(** * Ekadashi calendar data scripts: a shallow embedding and its properties

    Two one-shot Python scripts are embedded here:
    - [scripts/convert_to_pst_json.py] (module [ConvertToPst]): the raw
      San Jose data to ISO-8601 converter with its fixed 2026 DST rule;
    - [tool/fix_ekadashi_data.py] (module [FixEkadashiData]): the
      corrector that restricts the multi-year data set to 2026, patches
      IST timings from a literal table and renumbers the entries.

    Python values are modelled as the scripts see them: JSON documents as a
    tree whose objects are insertion-ordered association lists, exceptions
    as an explicit error result, [datetime] as the tuple of its fields.
    Characters are the 8-bit characters of [Ascii]. *)

From Stdlib Require Import ZArith List String Ascii Bool Lia Arith.
Import ListNotations.

Set Warnings "-register-all".

Open Scope string_scope.
Open Scope Z_scope.

(** ** Python runtime: exceptions and values *)

Module Py.

(** The exception classes that the two scripts can meet. *)
Inductive exn : Type :=
| ValueError
| KeyError
| TypeError
| AttributeError.

(** A computation either returns or raises. *)
Inductive result (A : Type) : Type :=
| Ok (a : A)
| Raise (e : exn).
Arguments Ok {A} a.
Arguments Raise {A} e.

Definition bind {A B : Type} (m : result A) (f : A -> result B) : result B :=
  match m with
  | Ok a => f a
  | Raise e => Raise e
  end.

(** What [json.load] builds: [dict] keeps insertion order, so an object
    is an association list; a float is carried as its literal, the
    scripts never compute with one. *)
Inductive json : Type :=
| JNull
| JBool (b : bool)
| JInt (n : Z)
| JFloat (literal : string)
| JStr (s : string)
| JArr (items : list json)
| JObj (fields : list (string * json)).

Definition dict : Type := list (string * json).

(** [d.get(k)] on the association list: the first binding of [k]. *)
Fixpoint lookup {V : Type} (k : string) (d : list (string * V)) : option V :=
  match d with
  | [] => None
  | (k', v) :: rest => if String.eqb k k' then Some v else lookup k rest
  end.

(** [d[k] = v]: an existing key keeps its position, a new key goes last. *)
Fixpoint store {V : Type} (k : string) (v : V) (d : list (string * V))
  : list (string * V) :=
  match d with
  | [] => [(k, v)]
  | (k', v') :: rest =>
      if String.eqb k k' then (k', v) :: rest else (k', v') :: store k v rest
  end.

(** [obj[k]]: [KeyError] on a dict without [k]; a string key on anything
    else is a [TypeError]. *)
Definition getitem (obj : json) (k : string) : result json :=
  match obj with
  | JObj d => match lookup k d with
              | Some v => Ok v
              | None => Raise KeyError
              end
  | _ => Raise TypeError
  end.

(** [obj[k] = v]. *)
Definition setitem (obj : json) (k : string) (v : json) : result json :=
  match obj with
  | JObj d => Ok (JObj (store k v d))
  | _ => Raise TypeError
  end.

(** [obj.get(k, default)]: only a dict has the method. *)
Definition get (obj : json) (k : string) (default : json) : result json :=
  match obj with
  | JObj d => match lookup k d with
              | Some v => Ok v
              | None => Ok default
              end
  | _ => Raise AttributeError
  end.

(** [s.startswith(prefix)]: only a str has the method. *)
Definition startswith (s : json) (p : string) : result bool :=
  match s with
  | JStr s => Ok (String.prefix p s)
  | _ => Raise AttributeError
  end.

(** [for x in obj]: a list yields its items, a dict its keys, a str its
    characters; nothing else is iterable. *)
Definition iterate (obj : json) : result (list json) :=
  match obj with
  | JArr items => Ok items
  | JObj d => Ok (map (fun kv => JStr (fst kv)) d)
  | JStr s => Ok (map (fun c => JStr (String c EmptyString)) (list_ascii_of_string s))
  | _ => Raise TypeError
  end.

(** [k in table] for a dict with str keys: the key is hashed first, and
    lists and dicts are unhashable; a value that is not a str equals no
    key. *)
Definition contains (table : dict) (k : json) : result (option json) :=
  match k with
  | JStr s => Ok (lookup s table)
  | JArr _ | JObj _ => Raise TypeError
  | _ => Ok None
  end.

End Py.

Import Py.

Declare Scope py_scope.
Delimit Scope py_scope with py.
Notation "x <- m ;; k" := (bind m (fun x => k))
  (at level 61, m at next level, right associativity) : py_scope.
Open Scope py_scope.

(** ** The backtracking matcher behind [strptime]

    [_strptime] turns the format into a regular expression, compiles it
    with [IGNORECASE] and calls [match]: the first match in the priority
    order of a backtracking matcher (alternatives left to right, [+]
    greedy), anchored at the start only. *)

Module Re.

Definition code (c : ascii) : N := N_of_ascii c.

(** [\d] on the characters below 256. *)
Definition is_digit (c : ascii) : bool :=
  ((48 <=? code c) && (code c <=? 57))%N.

(** [\s] of a str pattern on the characters below 256: what
    [str.isspace] accepts. *)
Definition is_space (c : ascii) : bool :=
  (((9 <=? code c) && (code c <=? 13)) || ((28 <=? code c) && (code c <=? 32))
   || (code c =? 133) || (code c =? 160))%N.

Definition in_range (lo hi : ascii) (c : ascii) : bool :=
  ((code lo <=? code c) && (code c <=? code hi))%N.

(** [str.lower] on one character of the ASCII letters. *)
Definition lower (c : ascii) : ascii :=
  if ((65 <=? code c) && (code c <=? 90))%N
  then ascii_of_N (code c + 32) else c.

Fixpoint lower_str (s : string) : string :=
  match s with
  | EmptyString => EmptyString
  | String c s' => String (lower c) (lower_str s')
  end.

Inductive regex : Type :=
| Chr (c : ascii)               (* a literal, matched ignoring case *)
| Class (f : ascii -> bool)     (* a character class *)
| Seq (a b : regex)
| Alt (a b : regex)
| Plus (f : ascii -> bool).     (* [f+], greedy *)

(** The tail of a greedy repetition: take one more character when the
    rest can still be matched, give it back otherwise. *)
Fixpoint star {A : Type} (f : ascii -> bool) (k : string -> option A)
    (s : string) : option A :=
  match s with
  | String c s' =>
      if f c
      then match star f k s' with
           | Some x => Some x
           | None => k s
           end
      else k s
  | EmptyString => k s
  end.

(** [run r s k]: match [r] at the start of [s] and hand the rest to the
    continuation [k]; when [k] fails the next alternative is tried. *)
Fixpoint run {A : Type} (r : regex) (s : string) (k : string -> option A)
    : option A :=
  match r with
  | Chr c =>
      match s with
      | String c' s' => if Ascii.eqb (lower c') (lower c) then k s' else None
      | EmptyString => None
      end
  | Class f =>
      match s with
      | String c' s' => if f c' then k s' else None
      | EmptyString => None
      end
  | Seq a b => run a s (fun s' => run b s' k)
  | Alt a b =>
      match run a s k with
      | Some x => Some x
      | None => run b s k
      end
  | Plus f =>
      match s with
      | String c' s' => if f c' then star f k s' else None
      | EmptyString => None
      end
  end.

(** A capturing group: the continuation also gets the text matched. *)
Definition group {A : Type} (r : regex) (s : string)
    (k : string -> string -> option A) : option A :=
  run r s (fun rest =>
    k (substring 0 (String.length s - String.length rest) s) rest).

End Re.

(** ** The [datetime] library, as far as the converter uses it *)

Module Datetime.

(** A naive [datetime]: the fields its constructor stores. *)
Record datetime : Type := mkdt {
  year : Z; month : Z; day : Z;
  hour : Z; minute : Z; second : Z; microsecond : Z
}.

(** [_is_leap], [_days_in_month], [_days_before_month],
    [_days_before_year] of [datetime.py]. *)
Definition is_leap (y : Z) : bool :=
  (y mod 4 =? 0) && (negb (y mod 100 =? 0) || (y mod 400 =? 0)).

Definition days_in_month (y m : Z) : Z :=
  match m with
  | 1 => 31 | 2 => if is_leap y then 29 else 28 | 3 => 31 | 4 => 30
  | 5 => 31 | 6 => 30 | 7 => 31 | 8 => 31 | 9 => 30 | 10 => 31
  | 11 => 30 | 12 => 31 | _ => 0
  end.

Definition days_before_month (y m : Z) : Z :=
  match m with
  | 1 => 0 | 2 => 31 | 3 => 59 | 4 => 90 | 5 => 120 | 6 => 151
  | 7 => 181 | 8 => 212 | 9 => 243 | 10 => 273 | 11 => 304 | 12 => 334
  | _ => 0
  end + (if (2 <? m) && is_leap y then 1 else 0).

Definition days_before_year (y : Z) : Z :=
  let y' := y - 1 in y' * 365 + y' / 4 - y' / 100 + y' / 400.

(** [date.toordinal()]: day 1 is 0001-01-01. *)
Definition toordinal (d : datetime) : Z :=
  days_before_year (year d) + days_before_month (year d) (month d) + day d.

(** The instant as a count of microseconds from 0001-01-01T00:00, the
    linear time line on which an interval of instants is read. *)
Definition instant (d : datetime) : Z :=
  ((((toordinal d - 1) * 24 + hour d) * 60 + minute d) * 60 + second d)
    * 1000000 + microsecond d.

(** The constructor's range checks ([_check_date_fields],
    [_check_time_fields]). *)
Definition check_date_fields (y m d : Z) : bool :=
  (1 <=? y) && (y <=? 9999) && (1 <=? m) && (m <=? 12)
  && (1 <=? d) && (d <=? days_in_month y m).

Definition check_time_fields (h mi s us : Z) : bool :=
  (0 <=? h) && (h <=? 23) && (0 <=? mi) && (mi <=? 59)
  && (0 <=? s) && (s <=? 59) && (0 <=? us) && (us <=? 999999).

Definition valid (d : datetime) : bool :=
  check_date_fields (year d) (month d) (day d)
  && check_time_fields (hour d) (minute d) (second d) (microsecond d).

(** Comparison of naive datetimes ([datetime._cmp]): the field tuples
    [(year, month, day, hour, minute, second, microsecond)] compared
    lexicographically. *)
Fixpoint cmp_tuple (a b : list Z) : comparison :=
  match a, b with
  | x :: a', y :: b' =>
      match x ?= y with
      | Eq => cmp_tuple a' b'
      | c => c
      end
  | [], [] => Eq
  | [], _ :: _ => Lt
  | _ :: _, [] => Gt
  end.

Definition fields (d : datetime) : list Z :=
  [year d; month d; day d; hour d; minute d; second d; microsecond d].

Definition cmp (a b : datetime) : comparison := cmp_tuple (fields a) (fields b).

(** [a <= b] and [a < b]. *)
Definition le (a b : datetime) : bool :=
  match cmp a b with Gt => false | _ => true end.
Definition lt (a b : datetime) : bool :=
  match cmp a b with Lt => true | _ => false end.

(** *** [datetime.strptime(s, "%Y-%m-%d %I:%M %p")] *)

Import Re.

Definition digit := Class is_digit.
Definition rng (lo hi : ascii) := Class (in_range lo hi).

(** The directives' patterns in [_strptime.TimeRE]. *)
(* %Y: \d\d\d\d *)
Definition re_Y : regex := Seq digit (Seq digit (Seq digit digit)).
(* %m and %I: 1[0-2]|0[1-9]|[1-9] *)
Definition re_m : regex :=
  Alt (Seq (Chr "1") (rng "0" "2"))
    (Alt (Seq (Chr "0") (rng "1" "9")) (rng "1" "9")).
Definition re_I : regex := re_m.
(* %d: 3[0-1]|[1-2]\d|0[1-9]|[1-9]| [1-9] *)
Definition re_d : regex :=
  Alt (Seq (Chr "3") (rng "0" "1"))
    (Alt (Seq (rng "1" "2") digit)
      (Alt (Seq (Chr "0") (rng "1" "9"))
        (Alt (rng "1" "9") (Seq (Chr " ") (rng "1" "9"))))).
(* %M: [0-5]\d|\d *)
Definition re_M : regex := Alt (Seq (rng "0" "5") digit) digit.
(* %p: am|pm, the C locale's markers *)
Definition re_p : regex :=
  Alt (Seq (Chr "a") (Chr "m")) (Seq (Chr "p") (Chr "m")).
(* a run of white space in the format becomes \s+ *)
Definition re_ws : regex := Plus is_space.

(** The groups of a match. *)
Record found : Type := mkfound {
  g_Y : string; g_m : string; g_d : string;
  g_I : string; g_M : string; g_p : string
}.

(** [format_regex.match(data_string)] for
    [(?P<Y>..)-(?P<m>..)-(?P<d>..)\s+(?P<I>..):(?P<M>..)\s+(?P<p>..)]:
    the groups and the text left after the match. *)
Definition format_regex_match (data_string : string) : option (found * string) :=
  group re_Y data_string (fun Y s1 =>
  run (Chr "-") s1 (fun s2 =>
  group re_m s2 (fun m s3 =>
  run (Chr "-") s3 (fun s4 =>
  group re_d s4 (fun d s5 =>
  run re_ws s5 (fun s6 =>
  group re_I s6 (fun I s7 =>
  run (Chr ":") s7 (fun s8 =>
  group re_M s8 (fun M s9 =>
  run re_ws s9 (fun s10 =>
  group re_p s10 (fun p rest =>
  Some (mkfound Y m d I M p, rest)))))))))))).

Definition digit_val (c : ascii) : Z := Z.of_N (code c) - 48.

Fixpoint lstrip (s : string) : string :=
  match s with
  | String c s' => if is_space c then lstrip s' else s
  | EmptyString => s
  end.

Fixpoint int_digits (acc : Z) (s : string) : result Z :=
  match s with
  | EmptyString => Ok acc
  | String c s' =>
      if is_digit c then int_digits (acc * 10 + digit_val c) s'
      else Raise ValueError
  end.

(** [int(s)] on the text of a group: leading white space is skipped,
    at least one digit is needed. *)
Definition int (s : string) : result Z :=
  match lstrip s with
  | EmptyString => Raise ValueError
  | t => int_digits 0 t
  end.

(** [_strptime]: no match and text left over are [ValueError]s; the
    hour is taken to the 24-hour clock by the marker; building the date
    checks the fields. Seconds and microseconds keep their defaults. *)
Definition strptime (data_string : string) : result datetime :=
  match format_regex_match data_string with
  | None => Raise ValueError
  | Some (f, rest) =>
      if negb (String.eqb rest "") then Raise ValueError
      else
        year <- int (g_Y f) ;;
        month <- int (g_m f) ;;
        day <- int (g_d f) ;;
        hour <- int (g_I f) ;;
        let ampm := lower_str (g_p f) in
        let hour :=
          if String.eqb ampm "am" then (if hour =? 12 then 0 else hour)
          else if String.eqb ampm "pm" then (if hour =? 12 then hour else hour + 12)
          else hour in
        minute <- int (g_M f) ;;
        if check_date_fields year month day
        then Ok (mkdt year month day hour minute 0 0)
        else Raise ValueError
  end.

(** *** [datetime.strftime] *)

Definition digit_char (n : Z) : ascii := ascii_of_N (Z.to_N (48 + n mod 10)).

(** [%02d] and [%04d] of a field that fits the width. *)
Definition pad2 (n : Z) : string :=
  String (digit_char (n / 10)) (String (digit_char n) "").
Definition pad4 (n : Z) : string :=
  String (digit_char (n / 1000)) (String (digit_char (n / 100))
    (String (digit_char (n / 10)) (String (digit_char n) ""))).

(** [%Y] as the C library under [strftime] writes it: the decimal digits
    of the year without padding, so that a year below 1000 comes out on
    fewer than four characters (years are 1 to 9999). *)
Definition year_Y (y : Z) : string :=
  if y <? 10 then String (digit_char y) ""
  else if y <? 100 then pad2 y
  else if y <? 1000 then String (digit_char (y / 100)) (pad2 y)
  else pad4 y.

(** The directives the converter's format uses. *)
Definition directive (d : datetime) (c : ascii) : string :=
  if Ascii.eqb c "Y" then year_Y (year d)
  else if Ascii.eqb c "m" then pad2 (month d)
  else if Ascii.eqb c "d" then pad2 (day d)
  else if Ascii.eqb c "H" then pad2 (hour d)
  else if Ascii.eqb c "M" then pad2 (minute d)
  else if Ascii.eqb c "S" then pad2 (second d)
  else if Ascii.eqb c "%" then "%"
  else String "%" (String c "").

(** [d.strftime(format)]: a directive is replaced by its field, every
    other character is copied. *)
Fixpoint strftime (d : datetime) (format : string) : string :=
  match format with
  | String c1 tl =>
      if Ascii.eqb c1 "%"
      then match tl with
           | String c2 rest => directive d c2 ++ strftime d rest
           | EmptyString => String c1 EmptyString
           end
      else String c1 (strftime d tl)
  | EmptyString => EmptyString
  end.

End Datetime.

Import Datetime.

(** ** scripts/convert_to_pst_json.py *)

Module ConvertToPst.

Definition DST_START_2026 : datetime := mkdt 2026 3 8 2 0 0 0.
Definition DST_END_2026 : datetime := mkdt 2026 11 1 2 0 0 0.

(** [get_pst_offset(dt_obj)]. *)
Definition get_pst_offset (dt_obj : datetime) : string :=
  if le DST_START_2026 dt_obj && lt dt_obj DST_END_2026
  then "-07:00"
  else "-08:00".

(** Truth value of a str-or-None argument. *)
Definition truthy (s : option string) : bool :=
  match s with
  | Some s => negb (String.eqb s "")
  | None => false
  end.

(** How an f-string shows it. *)
Definition fstr (s : option string) : string :=
  match s with
  | Some s => s
  | None => "None"
  end.

(** [convert_time_to_iso(date_str, time_str)]; the raw data holds
    strings (or null) in these fields, and the third parameter,
    [is_end_time], is never read. Only [ValueError] is caught. *)
Definition convert_time_to_iso (date_str time_str : option string)
  : result (option string) :=
  if negb (truthy date_str) || negb (truthy time_str) then Ok None
  else
    let dt_str := fstr date_str ++ " " ++ fstr time_str in
    match
      (dt <- strptime dt_str ;;
       let offset := get_pst_offset dt in
       Ok (strftime dt ("%Y-%m-%dT%H:%M:%S" ++ offset)))
    with
    | Ok s => Ok (Some s)
    | Raise ValueError => Ok None
    | Raise e => Raise e
    end.

(** A raw entry: a JSON object whose fields are strings or null. *)
Definition raw_item : Type := list (string * option string).

(** [item[k]]. *)
Definition item_get (item : raw_item) (k : string) : result (option string) :=
  match lookup k item with
  | Some v => Ok v
  | None => Raise KeyError
  end.

Definition to_json (s : option string) : json :=
  match s with
  | Some s => JStr s
  | None => JNull
  end.

(** The body of the loop of [main] for one [(idx, item)]. *)
Definition ekadashi_entry (idx : Z) (item : raw_item) : result json :=
  fasting_date <- item_get item "fasting_date" ;;
  parana_date <- item_get item "parana_date" ;;
  time_start <- item_get item "parana_start" ;;
  parana_start_iso <- convert_time_to_iso parana_date time_start ;;
  time_end <- item_get item "parana_end" ;;
  parana_end_iso <- convert_time_to_iso parana_date time_end ;;
  name <- item_get item "name" ;;
  Ok (JObj [("id", JInt (idx + 1));
            ("name", JObj [("en", to_json name)]);
            ("timing", JObj [("PST", JObj [
               ("date", to_json fasting_date);
               ("parana_start", to_json parana_start_iso);
               ("parana_end", to_json parana_end_iso)])])]).

(** [for idx, item in enumerate(raw_data)], appending to
    [final_ekadashis]. *)
Fixpoint main_loop (idx : Z) (raw_data : list raw_item)
    (final_ekadashis : list json) : result (list json) :=
  match raw_data with
  | [] => Ok final_ekadashis
  | item :: rest =>
      entry <- ekadashi_entry idx item ;;
      main_loop (idx + 1) rest (final_ekadashis ++ [entry])
  end.

(** [main()], from the loaded [raw_data] to [final_json]; [today] is
    [datetime.now().strftime("%Y-%m-%d")]. *)
Definition main (today : string) (raw_data : list raw_item) : result json :=
  final_ekadashis <- main_loop 0 raw_data [] ;;
  Ok (JObj [("version", JStr "1.5");
            ("generated", JStr today);
            ("source", JStr "Drik Panchang (San Jose)");
            ("year", JInt 2026);
            ("notes", JStr "Parana times for San Jose, CA. Includes DST adjustments.");
            ("ekadashis", JArr final_ekadashis)]).

End ConvertToPst.

(** ** tool/fix_ekadashi_data.py *)

Module FixEkadashiData.

(** One literal record of the table. *)
Definition ist_record (date fasting_start parana_start parana_end : string)
  : json :=
  JObj [("date", JStr date);
        ("fasting_start", JStr fasting_start);
        ("parana_start", JStr parana_start);
        ("parana_end", JStr parana_end)].

Definition ist_corrections : dict :=
  [("Mohini Ekadashi",
    ist_record "2026-04-27" "2026-04-27T05:36:00+05:30"
      "2026-04-28T05:35:00+05:30" "2026-04-28T09:47:00+05:30");
   ("Apara Ekadashi",
    ist_record "2026-05-13" "2026-05-13T05:26:00+05:30"
      "2026-05-14T05:25:00+05:30" "2026-05-14T09:39:00+05:30");
   ("Prabodhini Ekadashi",
    ist_record "2026-10-22" "2026-10-22T06:19:00+05:30"
      "2026-10-23T06:20:00+05:30" "2026-10-23T10:29:00+05:30");
   ("Utpanna Ekadashi",
    ist_record "2026-11-05" "2026-11-05T06:26:00+05:30"
      "2026-11-06T06:27:00+05:30" "2026-11-06T10:35:00+05:30");
   ("Saphala Ekadashi",
    ist_record "2026-12-04" "2026-12-04T06:44:00+05:30"
      "2026-12-05T06:45:00+05:30" "2026-12-05T10:49:00+05:30");
   ("Pausha Putrada Ekadashi",
    ist_record "2026-12-20" "2026-12-20T06:54:00+05:30"
      "2026-12-21T06:55:00+05:30" "2026-12-21T10:57:00+05:30")].

(** The lines the script prints, with the values they interpolate. *)
Inductive log_line : Type :=
| Corrected (name date : json)
| Kept (name date : json)
| Removed (name date : json)
| Retained (count : nat).

(** [obj[p1]..[pn][k] = v]: the dicts on the path are mutated in place,
    so the root sees the new value. *)
Fixpoint setitem_at (obj : json) (path : list string) (k : string) (v : json)
  : result json :=
  match path with
  | [] => setitem obj k v
  | p :: path' =>
      child <- getitem obj p ;;
      child' <- setitem_at child path' k v ;;
      setitem obj p child'
  end.

(** [ekadashi.get('name', {}).get('en', '')]. *)
Definition name_en (ekadashi : json) : result json :=
  names <- get ekadashi "name" (JObj []) ;;
  get names "en" (JStr "").

(** The loop state: [filtered_ekadashis] and what was printed. *)
Definition state : Type := (list json * list log_line)%type.

(** One iteration of the filter loop, for one [ekadashi]. *)
Definition loop_body (table : dict) (st : state) (ekadashi : json)
  : result state :=
  let '(filtered_ekadashis, out) := st in
  timing <- get ekadashi "timing" (JObj []) ;;
  ist_timing <- get timing "IST" (JObj []) ;;
  date_str <- get ist_timing "date" (JStr "") ;;
  in_2026 <- startswith date_str "2026" ;;
  if (in_2026 : bool) then
    ekadashi_name <- name_en ekadashi ;;
    hit <- contains table ekadashi_name ;;
    match hit with
    | Some correction =>
        ekadashi' <- setitem_at ekadashi ["timing"] "IST" correction ;;
        shown <- getitem correction "date" ;;
        Ok ((filtered_ekadashis ++ [ekadashi'])%list,
            (out ++ [Corrected ekadashi_name shown; Kept ekadashi_name date_str])%list)
    | None =>
        Ok ((filtered_ekadashis ++ [ekadashi])%list,
            (out ++ [Kept ekadashi_name date_str])%list)
    end
  else
    shown <- name_en ekadashi ;;
    Ok (filtered_ekadashis, (out ++ [Removed shown date_str])%list).

(** [for ekadashi in data['ekadashis']: ...]. *)
Fixpoint filter_loop (table : dict) (items : list json) (st : state)
  : result state :=
  match items with
  | [] => Ok st
  | ekadashi :: rest =>
      st' <- loop_body table st ekadashi ;;
      filter_loop table rest st'
  end.

(** [for i, ekadashi in enumerate(.., i): ekadashi['id'] = i]. *)
Fixpoint renumber (i : Z) (items : list json) : result (list json) :=
  match items with
  | [] => Ok []
  | ekadashi :: rest =>
      ekadashi' <- setitem ekadashi "id" (JInt i) ;;
      rest' <- renumber (i + 1) rest ;;
      Ok (ekadashi' :: rest')
  end.

Definition date_range_2026 : json :=
  JObj [("start", JStr "2026-01-01"); ("end", JStr "2026-12-31")].

(** The script from the loaded [data] to the document it dumps, with
    the correction table as a parameter; the script itself runs
    [corrector ist_corrections]. *)
Definition corrector (table : dict) (data : json)
  : result (json * list log_line) :=
  data <- setitem data "date_range" date_range_2026 ;;
  data <- setitem_at data ["timezones"; "IST"] "cities" (JArr [JStr "India"]) ;;
  ekadashis <- getitem data "ekadashis" ;;
  items <- iterate ekadashis ;;
  st <- filter_loop table items ([], []) ;;
  let '(filtered_ekadashis, out) := st in
  data <- setitem data "ekadashis" (JArr filtered_ekadashis) ;;
  renumbered <- renumber 1 filtered_ekadashis ;;
  data <- setitem data "ekadashis" (JArr renumbered) ;;
  Ok (data, (out ++ [Retained (List.length filtered_ekadashis)])%list).

Definition script (data : json) : result (json * list log_line) :=
  corrector ist_corrections data.

End FixEkadashiData.

(** ** Vocabulary of the statements *)

Module Spec.
Import Re ConvertToPst FixEkadashiData.

(** A date written [YYYY-MM-DD] and a 12-hour time written [H:MM AM]
    or [HH:MM AM], hours below ten with or without the leading zero. *)
Definition date_string (y m d : Z) : string :=
  pad4 y ++ "-" ++ pad2 m ++ "-" ++ pad2 d.

Definition hour_string (leading_zero : bool) (h : Z) : string :=
  if leading_zero || (10 <=? h) then pad2 h else String (digit_char h) "".

Definition meridiem (pm : bool) : string := if pm then "PM" else "AM".

Definition time_string (leading_zero : bool) (h mi : Z) (pm : bool) : string :=
  hour_string leading_zero h ++ ":" ++ pad2 mi ++ " " ++ meridiem pm.

(** The hour of the 24-hour clock. *)
Definition hour24 (h : Z) (pm : bool) : Z :=
  if pm then (if h =? 12 then 12 else h + 12)
  else (if h =? 12 then 0 else h).

(** The shape [YYYY-MM-DDTHH:MM:SS+HH:MM] (or with [-]): digits at the
    digit places, the separators in between, nothing more. *)
Definition iso_form (s : string) : bool :=
  match list_ascii_of_string s with
  | [y1; y2; y3; y4; a; m1; m2; b; d1; d2; t; h1; h2; c; n1; n2; e; s1; s2;
     sign; o1; o2; f; o3; o4] =>
      forallb is_digit
        [y1; y2; y3; y4; m1; m2; d1; d2; h1; h2; n1; n2; s1; s2;
         o1; o2; o3; o4]
      && Ascii.eqb a "-" && Ascii.eqb b "-" && Ascii.eqb t "T"
      && Ascii.eqb c ":" && Ascii.eqb e ":" && Ascii.eqb f ":"
      && (Ascii.eqb sign "+" || Ascii.eqb sign "-")
  | _ => false
  end.

Definition days_in_year (y : Z) : Z := if is_leap y then 366 else 365.

(** [r] matches the prefix [p] of [p ++ rest] first: whenever the
    continuation accepts [rest], that is the match found. *)
Definition first_match (r : regex) (p rest : string) : Prop :=
  forall (A : Type) (k : string -> option A) (x : A),
    k rest = Some x -> run r (p ++ rest) k = Some x.

(** The fields [main] reads from every raw entry. *)
Definition raw_fields : list string :=
  ["name"; "fasting_date"; "parana_date"; "parana_start"; "parana_end"].

Definition has_fields (item : raw_item) : bool :=
  forallb (fun k => match lookup k item with Some _ => true | None => false end)
    raw_fields.

(** The entries [main]'s loop appends, without the accumulator. *)
Fixpoint entries_from (idx : Z) (raw_data : list raw_item) : result (list json) :=
  match raw_data with
  | [] => Ok []
  | item :: rest =>
      entry <- ekadashi_entry idx item ;;
      entries <- entries_from (idx + 1) rest ;;
      Ok (entry :: entries)
  end.

(** The identifier of every entry of a list, where it has one. *)
Definition ids (entries : list json) : list (option json) :=
  map (fun e => match e with JObj d => lookup "id" d | _ => None end) entries.

(** [1..n] as identifiers. *)
Definition one_to (n : nat) : list (option json) :=
  map (fun i => Some (JInt (Z.of_nat i))) (seq 1 n).

(** A date or time string that yields no timestamp: absent, empty, or
    not parsed. *)
Definition bad_field (date_str time_str : option string) : Prop :=
  truthy date_str = false \/ truthy time_str = false
  \/ exists e, strptime (fstr date_str ++ " " ++ fstr time_str) = Raise e.

(** The output entry for a raw entry, given its identifier and the two
    converted instants. *)
Definition output_entry (id : Z) (name fasting_date iso_start iso_end : option string)
  : json :=
  JObj [("id", JInt id);
        ("name", JObj [("en", to_json name)]);
        ("timing", JObj [("PST", JObj [
           ("date", to_json fasting_date);
           ("parana_start", to_json iso_start);
           ("parana_end", to_json iso_end)])])].

(** Two raw entries, the first with an unparsable start time and a null
    end time. *)
Definition sample_raw : list raw_item :=
  [ [("name", Some "Saphala Ekadashi"); ("fasting_date", Some "2026-01-14");
     ("parana_date", Some "2026-01-15"); ("parana_start", Some "7.20");
     ("parana_end", None)];
    [("name", Some "Putrada Ekadashi"); ("fasting_date", Some "2026-01-29");
     ("parana_date", Some "2026-01-30"); ("parana_start", Some "07:12 AM");
     ("parana_end", Some "10:44 AM")] ].

(** *** Vocabulary for the corrector *)

(** [j[k]] when [j] is an object that has [k]. *)
Definition field (k : string) (j : json) : option json :=
  match j with
  | JObj d => lookup k d
  | _ => None
  end.

(** The IST timing sub-record of an event. *)
Definition ist_of (e : json) : option json :=
  match field "timing" e with
  | Some t => field "IST" t
  | None => None
  end.

(** The IST date of an event, [''] when it has none. *)
Definition date_of (e : json) : json :=
  match ist_of e with
  | Some i => match field "date" i with
              | Some v => v
              | None => JStr ""
              end
  | None => JStr ""
  end.

(** The IST date of an event is a string whose leading four characters
    are 2026. *)
Definition ist_date_in_2026 (e : json) : bool :=
  match date_of e with
  | JStr s => String.prefix "2026" s
  | _ => false
  end.

(** The English name of an event, [''] when it has none. *)
Definition name_of (e : json) : json :=
  match field "name" e with
  | Some n => match field "en" n with
              | Some v => v
              | None => JStr ""
              end
  | None => JStr ""
  end.

(** The table record for an event's name. *)
Definition table_hit (table : dict) (e : json) : option json :=
  match name_of e with
  | JStr n => lookup n table
  | _ => None
  end.

(** The event with its IST timing sub-record replaced by [c]. *)
Definition set_ist (c : json) (e : json) : json :=
  match e with
  | JObj d => match lookup "timing" d with
              | Some (JObj t) => JObj (store "timing" (JObj (store "IST" c t)) d)
              | _ => e
              end
  | _ => e
  end.

Definition apply_correction (table : dict) (e : json) : json :=
  match table_hit table e with
  | Some c => set_ist c e
  | None => e
  end.

(** The event with identifier [i]. *)
Definition set_id (i : Z) (e : json) : json :=
  match e with
  | JObj d => JObj (store "id" (JInt i) d)
  | _ => e
  end.

(** The events of a document, as the loop meets them. *)
Definition events (data : json) : result (list json) :=
  ekadashis <- getitem data "ekadashis" ;;
  iterate ekadashis.

Definition hashable (j : json) : bool :=
  match j with
  | JArr _ | JObj _ => false
  | _ => true
  end.

(** The printed lines of one iteration. *)
Definition lines (table : dict) (e : json) : list log_line :=
  if ist_date_in_2026 e then
    match table_hit table e with
    | Some c =>
        [Corrected (name_of e)
           (match field "date" c with Some v => v | None => JNull end);
         Kept (name_of e) (date_of e)]
    | None => [Kept (name_of e) (date_of e)]
    end
  else [Removed (name_of e) (date_of e)].

(** The events the loop keeps, corrected, in their order. *)
Definition kept (table : dict) (items : list json) : list json :=
  map (apply_correction table) (filter ist_date_in_2026 items).

(** The entries numbered from [i]. *)
Fixpoint renumbered (i : Z) (items : list json) : list json :=
  match items with
  | [] => []
  | e :: rest => set_id i e :: renumbered (i + 1) rest
  end.

Definition is_obj (j : json) : bool :=
  match j with
  | JObj _ => true
  | _ => false
  end.

(** The document after the metadata rewrite, for a document [d] whose
    time-zone table is [tzs] and whose IST entry is [ist]. *)
Definition with_metadata (d tzs ist : dict) : dict :=
  store "timezones"
    (JObj (store "IST" (JObj (store "cities" (JArr [JStr "India"]) ist)) tzs))
    (store "date_range" date_range_2026 d).

(** The order of the specification's steps 2 and 3: every event whose
    name is in the table is corrected, then the events are filtered on
    the IST date they then have. *)
Definition correct_then_filter (table : dict) (items : list json) : list json :=
  filter ist_date_in_2026 (map (apply_correction table) items).

(** A 2025 event under a name of the table, and a document holding it. *)
Definition mohini_2025 : json :=
  JObj [("id", JInt 9);
        ("name", JObj [("en", JStr "Mohini Ekadashi")]);
        ("timing", JObj [("IST", JObj [
           ("date", JStr "2025-05-08");
           ("fasting_start", JStr "2025-05-08T05:35:00+05:30");
           ("parana_start", JStr "2025-05-09T05:34:00+05:30");
           ("parana_end", JStr "2025-05-09T09:46:00+05:30")])])].

Definition document_of (events : list json) : json :=
  JObj [("version", JStr "2.0");
        ("date_range", JObj [("start", JStr "2025-01-01"); ("end", JStr "2027-12-31")]);
        ("timezones", JObj [("IST", JObj [("cities", JArr [JStr "Delhi"; JStr "Mumbai"])])]);
        ("ekadashis", JArr events)].

(** A 2026 event under a name of the table, with a second time zone, and
    a 2026 event whose name is not in the table. *)
Definition apara_2026 : json :=
  JObj [("id", JInt 31);
        ("name", JObj [("en", JStr "Apara Ekadashi"); ("hi", JStr "Apara")]);
        ("timing", JObj [
           ("IST", JObj [("date", JStr "2026-05-12")]);
           ("EST", JObj [("date", JStr "2026-05-12")])])].

Definition kamada_2026 : json :=
  JObj [("id", JInt 30);
        ("name", JObj [("en", JStr "Kamada Ekadashi")]);
        ("timing", JObj [("IST", JObj [("date", JStr "2026-03-29")])])].

Definition sample_document : json :=
  document_of [mohini_2025; kamada_2026; apara_2026].

(** An entry has no IST date to read: no [timing] key, or a timing block
    without [IST], or an IST record without [date]. *)
Definition undated (d : dict) : Prop :=
  lookup "timing" d = None
  \/ (exists t, lookup "timing" d = Some (JObj t)
        /\ (lookup "IST" t = None
            \/ exists i, lookup "IST" t = Some (JObj i)
                         /\ lookup "date" i = None)).

(** The [name] of an entry is absent or an object. *)
Definition name_readable (d : dict) : Prop :=
  lookup "name" d = None \/ exists n, lookup "name" d = Some (JObj n).

(** Every record of the table is dated in 2026. *)
Definition record_in_2026 (c : json) : bool :=
  match field "date" c with
  | Some (JStr s) => String.prefix "2026" s
  | _ => false
  end.

Definition table_in_2026 (table : dict) : bool :=
  forallb (fun kv => record_in_2026 (snd kv)) table.

(** *** Documents of the expected shape *)

Definition is_str (j : json) : bool :=
  match j with
  | JStr _ => true
  | _ => false
  end.

Definition absent_or (p : json -> bool) (o : option json) : bool :=
  match o with
  | Some v => p v
  | None => true
  end.

(** An event: an object; [name], when present, an object whose [en] is
    no list and no object; [timing], when present, an object; its [IST],
    when present, an object; its [date], when present, a string. *)
Definition well_shaped_event (e : json) : bool :=
  is_obj e
  && absent_or is_obj (field "name" e)
  && hashable (name_of e)
  && absent_or
       (fun t => is_obj t
                 && absent_or
                      (fun i => is_obj i && absent_or is_str (field "date" i))
                      (field "IST" t))
       (field "timing" e).

(** A document: an object with a [timezones] object holding an [IST]
    object, and an [ekadashis] array of events. *)
Definition well_shaped (data : json) : bool :=
  is_obj data
  && match field "timezones" data with
     | Some tzs => match field "IST" tzs with
                   | Some ist => is_obj ist
                   | None => false
                   end
     | None => false
     end
  && match field "ekadashis" data with
     | Some (JArr items) => forallb well_shaped_event items
     | _ => false
     end.

(** Every record of the table is an object with a [date]. *)
Definition table_has_dates (table : dict) : bool :=
  forallb (fun kv => match field "date" (snd kv) with
                     | Some _ => true
                     | None => false
                     end) table.

End Spec.

(** ** Vocabulary of the further properties *)

Module More.
Import Re ConvertToPst FixEkadashiData Spec.

(** Every character of [s] is in the class [f]. *)
Fixpoint all_chars (f : ascii -> bool) (s : string) : bool :=
  match s with
  | EmptyString => true
  | String c s' => f c && all_chars f s'
  end.

(** The texts a pattern matches. *)
Fixpoint lang (r : regex) (p : string) : Prop :=
  match r with
  | Chr c => exists c', p = String c' "" /\ Ascii.eqb (lower c') (lower c) = true
  | Class f => exists c', p = String c' "" /\ f c' = true
  | Seq a b => exists p1 p2, p = p1 ++ p2 /\ lang a p1 /\ lang b p2
  | Alt a b => lang a p \/ lang b p
  | Plus f => exists c' q, p = String c' q /\ f c' = true /\ all_chars f q = true
  end.

(** The PST timing record of an output entry of the raw converter. *)
Definition pst_of (e : json) : option json :=
  match field "timing" e with
  | Some t => field "PST" t
  | None => None
  end.

(** The timestamp the converter writes for a datetime on the minute. *)
Definition rendered (dt : datetime) : string :=
  year_Y (year dt) ++ "-" ++ pad2 (month dt) ++ "-" ++ pad2 (day dt) ++ "T"
    ++ pad2 (hour dt) ++ ":" ++ pad2 (minute dt) ++ ":00" ++ get_pst_offset dt.

(** Null, or the timestamp of a valid datetime, which has the ISO shape
    from the year 1000 on. *)
Definition instant_or_null (v : json) : Prop :=
  v = JNull
  \/ exists dt, valid dt = true /\ v = JStr (rendered dt)
                /\ (1000 <= year dt -> iso_form (rendered dt) = true).

(** Which kind a printed line is. *)
Definition is_kept_line (l : log_line) : bool :=
  match l with
  | Kept _ _ => true
  | _ => false
  end.

Definition is_removed_line (l : log_line) : bool :=
  match l with
  | Removed _ _ => true
  | _ => false
  end.

Definition is_corrected_line (l : log_line) : bool :=
  match l with
  | Corrected _ _ => true
  | _ => false
  end.

(** The events of a document, when it has an array of them. *)
Definition entries_of (data : json) : list json :=
  match field "ekadashis" data with
  | Some (JArr items) => items
  | _ => []
  end.

(** The same name twice in 2026, as the lunar calendar has it: the
    Saphala Ekadashi of January and the one of December. *)
Definition saphala_january : json :=
  JObj [("id", JInt 27);
        ("name", JObj [("en", JStr "Saphala Ekadashi")]);
        ("timing", JObj [("IST", JObj [("date", JStr "2026-01-14")])])].

Definition saphala_december : json :=
  JObj [("id", JInt 51);
        ("name", JObj [("en", JStr "Saphala Ekadashi")]);
        ("timing", JObj [("IST", JObj [("date", JStr "2026-12-04")])])].

End More.

(** * Proofs *)

(** ** Calendar arithmetic and the DST rule *)

Import Re ConvertToPst Spec.

Lemma days_before_year_succ (y : Z) :
  days_before_year (y + 1) = days_before_year y + days_in_year y.
Proof.
  unfold days_before_year, days_in_year, is_leap.
  replace (y + 1 - 1) with y by lia.
  destruct (Z.eqb_spec (y mod 4) 0); destruct (Z.eqb_spec (y mod 100) 0);
    destruct (Z.eqb_spec (y mod 400) 0); cbn [andb orb negb];
    Z.to_euclidean_division_equations; lia.
Qed.

Lemma days_before_year_mono (y y' : Z) :
  y <= y' -> days_before_year y <= days_before_year y'.
Proof.
  unfold days_before_year. intros H.
  Z.to_euclidean_division_equations; lia.
Qed.

Lemma check_date_fields_spec (y m d : Z) :
  check_date_fields y m d = true <->
  1 <= y <= 9999 /\ 1 <= m <= 12 /\ 1 <= d <= days_in_month y m.
Proof.
  unfold check_date_fields.
  rewrite !andb_true_iff, !Z.leb_le. tauto.
Qed.

Lemma check_time_fields_spec (h mi s us : Z) :
  check_time_fields h mi s us = true <->
  0 <= h <= 23 /\ 0 <= mi <= 59 /\ 0 <= s <= 59 /\ 0 <= us <= 999999.
Proof.
  unfold check_time_fields.
  rewrite !andb_true_iff, !Z.leb_le. tauto.
Qed.

Ltac month_cases m H :=
  let Hm := fresh "Hm" in
  assert (Hm : m = 1 \/ m = 2 \/ m = 3 \/ m = 4 \/ m = 5 \/ m = 6 \/ m = 7
               \/ m = 8 \/ m = 9 \/ m = 10 \/ m = 11 \/ m = 12) by lia;
  clear H;
  repeat (destruct Hm as [Hm | Hm]; [subst m | ]); [ .. | subst m].

Ltac calendar_tables :=
  cbv beta iota delta
    [days_in_month days_before_month days_in_year Z.ltb Z.compare
     Pos.compare Pos.compare_cont andb] in *.

Lemma day_of_year_bounds (y m d : Z) :
  check_date_fields y m d = true ->
  1 <= days_before_month y m + d <= days_in_year y.
Proof.
  intros H. apply check_date_fields_spec in H. destruct H as (_ & Hm & Hd).
  month_cases m Hm; calendar_tables; destruct (is_leap y); lia.
Qed.

Lemma month_step (y m m' d : Z) :
  check_date_fields y m d = true -> 1 <= m' <= 12 -> m < m' ->
  days_before_month y m + d <= days_before_month y m'.
Proof.
  intros H Hr Hlt. apply check_date_fields_spec in H.
  destruct H as (_ & Hm & Hd).
  assert (Hm' : m' = 1 \/ m' = 2 \/ m' = 3 \/ m' = 4 \/ m' = 5 \/ m' = 6
                \/ m' = 7 \/ m' = 8 \/ m' = 9 \/ m' = 10 \/ m' = 11
                \/ m' = 12) by lia.
  clear Hr.
  month_cases m Hm;
    (repeat (destruct Hm' as [Hm' | Hm']; [subst m' | ]); [ .. | subst m']);
    try lia; calendar_tables; destruct (is_leap y); lia.
Qed.

Lemma year_step (y y' : Z) :
  y < y' -> days_before_year y + days_in_year y <= days_before_year y'.
Proof.
  intros H. rewrite <- days_before_year_succ.
  apply days_before_year_mono. lia.
Qed.

(** On valid datetimes the field-wise comparison is the comparison of
    instants. *)
Lemma cmp_instant (a b : datetime) :
  valid a = true -> valid b = true ->
  cmp a b = (instant a ?= instant b).
Proof.
  destruct a as [ya ma da ha mia sa ua], b as [yb mb db hb mib sb ub].
  unfold valid, cmp, fields, instant, toordinal; cbn [year month day hour minute second microsecond cmp_tuple].
  intros Ha Hb.
  apply andb_prop in Ha; destruct Ha as [Hda Hta].
  apply andb_prop in Hb; destruct Hb as [Hdb Htb].
  pose proof (day_of_year_bounds _ _ _ Hda) as Ba.
  pose proof (day_of_year_bounds _ _ _ Hdb) as Bb.
  pose proof (proj1 (check_date_fields_spec _ _ _) Hda) as (_ & Hma & Hdda).
  pose proof (proj1 (check_date_fields_spec _ _ _) Hdb) as (_ & Hmb & Hddb).
  apply check_time_fields_spec in Hta, Htb.
  symmetry.
  destruct (Z.compare_spec ya yb) as [-> | Hy | Hy].
  - destruct (Z.compare_spec ma mb) as [-> | Hm | Hm].
    + destruct (Z.compare_spec da db) as [-> | Hd | Hd];
        [ destruct (Z.compare_spec ha hb) as [-> | Hh | Hh];
          [ destruct (Z.compare_spec mia mib) as [-> | Hi | Hi];
            [ destruct (Z.compare_spec sa sb) as [-> | Hs | Hs];
              [ destruct (Z.compare_spec ua ub) as [-> | Hu | Hu] | | ] | | ] | | ] | | ];
        first [ apply Z.compare_eq_iff | apply Z.compare_lt_iff | apply Z.compare_gt_iff ]; lia.
    + pose proof (month_step _ _ mb _ Hda ltac:(lia) Hm).
      apply Z.compare_lt_iff; lia.
    + pose proof (month_step _ _ ma _ Hdb ltac:(lia) Hm).
      apply Z.compare_gt_iff; lia.
  - pose proof (year_step _ _ Hy). apply Z.compare_lt_iff; lia.
  - pose proof (year_step _ _ Hy). apply Z.compare_gt_iff; lia.
Qed.

Lemma get_pst_offset_instant (dt : datetime) :
  valid dt = true ->
  get_pst_offset dt =
    if (instant DST_START_2026 <=? instant dt)
       && (instant dt <? instant DST_END_2026)
    then "-07:00" else "-08:00".
Proof.
  intros Hv. unfold get_pst_offset, le, lt.
  rewrite (cmp_instant DST_START_2026 dt eq_refl Hv).
  rewrite (cmp_instant dt DST_END_2026 Hv eq_refl).
  unfold Z.leb, Z.ltb.
  destruct (instant DST_START_2026 ?= instant dt);
    destruct (instant dt ?= instant DST_END_2026); reflexivity.
Qed.

(** C1. On every valid instant [get_pst_offset] gives the summer offset
    -07:00 exactly when the instant lies in the half-open interval from
    2026-03-08T02:00 (included) to 2026-11-01T02:00 (excluded), and the
    standard offset -08:00 exactly when it does not; the start of the
    interval gets the summer offset and its end the standard one, the
    minute before each the other; and on any field tuple whatever the
    result is one of the two offsets. *)
Theorem get_pst_offset_interval (dt : datetime) :
  valid dt = true ->
  (get_pst_offset dt = "-07:00"
     <-> instant DST_START_2026 <= instant dt < instant DST_END_2026)
  /\ (get_pst_offset dt = "-08:00"
     <-> ~ (instant DST_START_2026 <= instant dt < instant DST_END_2026))
  /\ get_pst_offset DST_START_2026 = "-07:00"
  /\ get_pst_offset DST_END_2026 = "-08:00"
  /\ get_pst_offset (mkdt 2026 3 8 1 59 0 0) = "-08:00"
  /\ get_pst_offset (mkdt 2026 11 1 1 59 0 0) = "-07:00"
  /\ (forall d, get_pst_offset d = "-07:00" \/ get_pst_offset d = "-08:00").
Proof.
  intros Hv. rewrite (get_pst_offset_instant dt Hv).
  generalize (instant DST_START_2026) (instant DST_END_2026) (instant dt).
  intros s e t.
  assert (Hc : forall d, get_pst_offset d = "-07:00" \/ get_pst_offset d = "-08:00").
  { intros d. unfold get_pst_offset.
    destruct (le DST_START_2026 d && lt d DST_END_2026); auto. }
  destruct (Z.leb_spec s t); destruct (Z.ltb_spec t e); cbn [andb];
    (split; [ | split; [ | repeat split; solve [ reflexivity | apply Hc ] ] ]);
    split; intros; try reflexivity; try discriminate; lia.
Qed.

Lemma get_pst_offset_interval_witness :
  valid (mkdt 2026 6 15 5 35 0 0) = true
  /\ (get_pst_offset (mkdt 2026 6 15 5 35 0 0) = "-07:00"
      <-> instant DST_START_2026 <= instant (mkdt 2026 6 15 5 35 0 0)
          < instant DST_END_2026).
Proof.
  split; [ reflexivity | ].
  exact (proj1 (get_pst_offset_interval (mkdt 2026 6 15 5 35 0 0) eq_refl)).
Defined.

(** ** Parsing and rendering *)

Lemma length_append (p s : string) :
  String.length (p ++ s) = (String.length p + String.length s)%nat.
Proof. induction p as [ | c p IH]; cbn; [ reflexivity | now rewrite IH ]. Qed.

Lemma substring_prefix (p s : string) :
  substring 0 (String.length p) (p ++ s) = p.
Proof.
  induction p as [ | c p IH]; cbn.
  - destruct s; reflexivity.
  - now rewrite IH.
Qed.

Lemma group_first {A : Type} (r : regex) (p rest : string)
    (k : string -> string -> option A) (x : A) :
  first_match r p rest -> k p rest = Some x ->
  group r (p ++ rest) k = Some x.
Proof.
  intros Hr Hk. unfold group. apply Hr.
  rewrite length_append, Nat.add_sub, substring_prefix. exact Hk.
Qed.

Lemma run_Chr {A : Type} (c : ascii) (s : string) (k : string -> option A) :
  run (Chr c) (String c s) k = k s.
Proof. cbn. now rewrite Ascii.eqb_refl. Qed.

Lemma run_Class {A : Type} (f : ascii -> bool) (c : ascii) (s : string)
    (k : string -> option A) :
  f c = true -> run (Class f) (String c s) k = k s.
Proof. intros H. cbn. now rewrite H. Qed.

Lemma digit_char_spec (n : Z) :
  is_digit (digit_char n) = true /\ digit_val (digit_char n) = n mod 10.
Proof.
  unfold digit_char.
  assert (H : 0 <= n mod 10 < 10) by (apply Z.mod_pos_bound; lia).
  generalize dependent (n mod 10). intros r H.
  assert (Hr : r = 0 \/ r = 1 \/ r = 2 \/ r = 3 \/ r = 4 \/ r = 5 \/ r = 6
               \/ r = 7 \/ r = 8 \/ r = 9) by lia.
  repeat (destruct Hr as [Hr | Hr]; [subst r; split; reflexivity | ]).
  subst r; split; reflexivity.
Qed.

Lemma first_match_Y (y : Z) (rest : string) : first_match re_Y (pad4 y) rest.
Proof.
  intros A k x Hk. unfold re_Y, pad4, digit. cbn [append run].
  rewrite !(proj1 (digit_char_spec _)). exact Hk.
Qed.

(** Case analysis on an integer known to lie in a small range. *)
Ltac by_cases_from x n tac :=
  first
    [ exfalso; lia
    | destruct (Z.eq_dec x n) as [-> | ?];
      [ tac | let n' := eval compute in (n + 1) in by_cases_from x n' tac ] ].

Ltac first_match_by_computation :=
  let A := fresh "A" in let k := fresh "k" in
  let x := fresh "x" in let Hk := fresh "Hk" in
  intros A k x Hk; vm_compute; rewrite ?Hk; reflexivity.

Lemma first_match_m (m : Z) (rest : string) :
  1 <= m <= 12 -> first_match re_m (pad2 m) rest.
Proof.
  intros H. by_cases_from m 1 first_match_by_computation.
Qed.

Lemma first_match_d (d : Z) (rest : string) :
  1 <= d <= 31 -> first_match re_d (pad2 d) rest.
Proof.
  intros H. by_cases_from d 1 first_match_by_computation.
Qed.

Lemma first_match_M (mi : Z) (rest : string) :
  0 <= mi <= 59 -> first_match re_M (pad2 mi) rest.
Proof.
  intros H. by_cases_from mi 0 first_match_by_computation.
Qed.

Lemma first_match_I (lz : bool) (h : Z) (rest : string) :
  1 <= h <= 12 -> first_match re_I (hour_string lz h) (String ":" rest).
Proof.
  intros H. destruct lz; by_cases_from h 1 first_match_by_computation.
Qed.

Lemma first_match_p (pm : bool) : first_match re_p (meridiem pm) "".
Proof. destruct pm; first_match_by_computation. Qed.

Lemma first_match_ws (c : ascii) (rest : string) :
  is_space c = false -> first_match re_ws " " (String c rest).
Proof.
  intros Hc A k x Hk. cbn [append]. unfold re_ws.
  cbn [run]. change (is_space " ") with true. cbn match.
  cbn [star]. now rewrite Hc.
Qed.

Lemma append_assoc (a b c : string) : (a ++ b) ++ c = a ++ (b ++ c).
Proof. induction a as [ | x a IH]; cbn; [ reflexivity | now rewrite IH ]. Qed.

Lemma append_nil_r (a : string) : a ++ "" = a.
Proof. induction a as [ | x a IH]; cbn; [ reflexivity | now rewrite IH ]. Qed.

Lemma first_match_ws_before (p rest : string) :
  (exists c t, p = String c t /\ is_space c = false) ->
  first_match re_ws " " (p ++ rest).
Proof.
  intros (c & t & -> & Hc). cbn [append]. now apply first_match_ws.
Qed.

Lemma hour_string_head (lz : bool) (h : Z) :
  1 <= h <= 12 ->
  exists c t, hour_string lz h = String c t /\ is_space c = false.
Proof.
  intros H.
  destruct lz;
    by_cases_from h 1 ltac:(do 2 eexists; split; [ vm_compute; reflexivity | reflexivity ]).
Qed.

Lemma meridiem_head (pm : bool) :
  exists c t, meridiem pm = String c t /\ is_space c = false.
Proof. destruct pm; do 2 eexists; split; reflexivity. Qed.

(** The text the converter hands to [strptime], read from the left. *)
Lemma dt_str_shape (y m d : Z) (lz : bool) (h mi : Z) (pm : bool) :
  date_string y m d ++ " " ++ time_string lz h mi pm =
  pad4 y ++ String "-" (pad2 m ++ String "-" (pad2 d ++ String " "
    (hour_string lz h ++ String ":" (pad2 mi ++ String " "
      (meridiem pm ++ ""))))).
Proof.
  unfold date_string, time_string.
  rewrite !append_assoc, append_nil_r. reflexivity.
Qed.

Lemma format_regex_match_valid (y m d : Z) (lz : bool) (h mi : Z) (pm : bool) :
  1 <= m <= 12 -> 1 <= d <= 31 -> 1 <= h <= 12 -> 0 <= mi <= 59 ->
  format_regex_match (date_string y m d ++ " " ++ time_string lz h mi pm) =
  Some (mkfound (pad4 y) (pad2 m) (pad2 d) (hour_string lz h) (pad2 mi)
          (meridiem pm), "").
Proof.
  intros Hm Hd Hh Hmi. rewrite dt_str_shape. unfold format_regex_match.
  apply group_first; [ apply first_match_Y | ]. rewrite run_Chr.
  apply group_first; [ now apply first_match_m | ]. rewrite run_Chr.
  apply group_first; [ now apply first_match_d | ].
  change (String " " ?s) with (" " ++ s).
  apply first_match_ws_before; [ now apply hour_string_head | ].
  apply group_first; [ now apply first_match_I | ]. rewrite run_Chr.
  apply group_first; [ now apply first_match_M | ].
  change (String " " ?s) with (" " ++ s).
  apply first_match_ws_before; [ apply meridiem_head | ].
  apply group_first; [ apply first_match_p | ]. reflexivity.
Qed.

Lemma digit_char_not_space (n : Z) : is_space (digit_char n) = false.
Proof.
  unfold digit_char.
  assert (H : 0 <= n mod 10 < 10) by (apply Z.mod_pos_bound; lia).
  generalize dependent (n mod 10). intros r H.
  by_cases_from r 0 reflexivity.
Qed.

Lemma int_pad4 (y : Z) : 0 <= y <= 9999 -> int (pad4 y) = Ok y.
Proof.
  intros H. unfold int, pad4. cbn [lstrip].
  rewrite digit_char_not_space. cbn [int_digits].
  rewrite !(proj1 (digit_char_spec _)), !(proj2 (digit_char_spec _)).
  f_equal. Z.to_euclidean_division_equations; lia.
Qed.

Lemma int_pad2 (n : Z) : 0 <= n <= 99 -> int (pad2 n) = Ok n.
Proof.
  intros H. unfold int, pad2. cbn [lstrip].
  rewrite digit_char_not_space. cbn [int_digits].
  rewrite !(proj1 (digit_char_spec _)), !(proj2 (digit_char_spec _)).
  f_equal. Z.to_euclidean_division_equations; lia.
Qed.

Lemma int_hour_string (lz : bool) (h : Z) :
  1 <= h <= 12 -> int (hour_string lz h) = Ok h.
Proof.
  intros H. destruct lz; by_cases_from h 1 ltac:(vm_compute; reflexivity).
Qed.

(** [strptime] on a valid date and time. *)
Lemma strptime_valid (y m d : Z) (lz : bool) (h mi : Z) (pm : bool) :
  check_date_fields y m d = true -> 1 <= h <= 12 -> 0 <= mi <= 59 ->
  strptime (date_string y m d ++ " " ++ time_string lz h mi pm) =
  Ok (mkdt y m d (hour24 h pm) mi 0 0).
Proof.
  intros Hd Hh Hmi.
  pose proof (proj1 (check_date_fields_spec _ _ _) Hd) as (Hy & Hm & Hdd).
  assert (Hd31 : 1 <= d <= 31).
  { split; [ lia | ]. destruct Hdd as [_ Hdd]. revert Hdd.
    month_cases m Hm; calendar_tables; destruct (is_leap y); lia. }
  unfold strptime.
  rewrite format_regex_match_valid by assumption.
  cbn [negb String.eqb g_Y g_m g_d g_I g_M g_p].
  rewrite int_pad4, int_pad2, int_pad2, int_hour_string, int_pad2 by lia.
  cbn [bind]. rewrite Hd. f_equal. f_equal.
  unfold hour24. destruct pm; destruct (Z.eqb_spec h 12); subst; reflexivity.
Qed.

Lemma get_pst_offset_cases (dt : datetime) :
  get_pst_offset dt = "-07:00" \/ get_pst_offset dt = "-08:00".
Proof.
  unfold get_pst_offset.
  destruct (le DST_START_2026 dt && lt dt DST_END_2026); [ left | right ]; reflexivity.
Qed.

(** [strftime] with the converter's format. *)
Lemma strftime_iso (dt : datetime) :
  strftime dt ("%Y-%m-%dT%H:%M:%S" ++ get_pst_offset dt) =
  year_Y (year dt) ++ "-" ++ pad2 (month dt) ++ "-" ++ pad2 (day dt) ++ "T"
    ++ pad2 (hour dt) ++ ":" ++ pad2 (minute dt) ++ ":" ++ pad2 (second dt)
    ++ get_pst_offset dt.
Proof.
  destruct (get_pst_offset_cases dt) as [-> | ->]; reflexivity.
Qed.

Lemma iso_form_rendered (y m d hh mi : Z) (offset : string) :
  offset = "-07:00" \/ offset = "-08:00" ->
  iso_form (date_string y m d ++ "T" ++ pad2 hh ++ ":" ++ pad2 mi ++ ":00"
              ++ offset) = true.
Proof.
  intros [-> | ->]; unfold iso_form, date_string, pad4, pad2;
    cbn [append list_ascii_of_string forallb];
    rewrite !(proj1 (digit_char_spec _)); reflexivity.
Qed.

(** From the year 1000 on [%Y] fills its four places. *)
Lemma year_Y_four_digits (y : Z) : 1000 <= y -> year_Y y = pad4 y.
Proof.
  intros H. unfold year_Y.
  destruct (Z.ltb_spec y 10); [ lia | ].
  destruct (Z.ltb_spec y 100); [ lia | ].
  destruct (Z.ltb_spec y 1000); [ lia | reflexivity ].
Qed.

(** Below the year 1000 the rendering is too short for the ISO shape. *)
Lemma iso_form_short_year (y m d hh mi : Z) (offset : string) :
  y < 1000 -> offset = "-07:00" \/ offset = "-08:00" ->
  iso_form (year_Y y ++ "-" ++ pad2 m ++ "-" ++ pad2 d ++ "T" ++ pad2 hh
              ++ ":" ++ pad2 mi ++ ":00" ++ offset) = false.
Proof.
  intros Hy Ho. unfold year_Y.
  destruct (Z.ltb_spec y 10);
    [ | destruct (Z.ltb_spec y 100);
        [ | destruct (Z.ltb_spec y 1000); [ | lia ] ] ];
    destruct Ho as [-> | ->]; reflexivity.
Qed.

(** C4, as the code has it. A valid calendar date written YYYY-MM-DD and
    a 12-hour time with its AM/PM marker convert to a timestamp: the year
    as [%Y] writes it, the month and day on two digits, T, the time on
    the 24-hour clock with seconds 00, and the offset that
    [get_pst_offset] gives for the parsed instant. From the year 1000 on
    this is the date string itself followed by the time and the offset,
    of the ISO shape; below the year 1000 the year loses its leading
    zeros and the result is not of that shape. The two worked conversions
    of the specification come out as stated. *)
Theorem convert_time_to_iso_valid (y m d : Z) (lz : bool) (h mi : Z) (pm : bool) :
  check_date_fields y m d = true -> 1 <= h <= 12 -> 0 <= mi <= 59 ->
  let dt := mkdt y m d (hour24 h pm) mi 0 0 in
  let iso := year_Y y ++ "-" ++ pad2 m ++ "-" ++ pad2 d ++ "T"
               ++ pad2 (hour24 h pm) ++ ":" ++ pad2 mi ++ ":00"
               ++ get_pst_offset dt in
  convert_time_to_iso (Some (date_string y m d)) (Some (time_string lz h mi pm))
    = Ok (Some iso)
  /\ (1000 <= y ->
      iso = date_string y m d ++ "T" ++ pad2 (hour24 h pm) ++ ":" ++ pad2 mi
              ++ ":00" ++ get_pst_offset dt
      /\ iso_form iso = true)
  /\ (y < 1000 -> iso_form iso = false)
  /\ convert_time_to_iso (Some "2026-06-15") (Some "05:35 AM")
     = Ok (Some "2026-06-15T05:35:00-07:00")
  /\ convert_time_to_iso (Some "2026-12-01") (Some "06:45 AM")
     = Ok (Some "2026-12-01T06:45:00-08:00").
Proof.
  intros Hd Hh Hmi dt iso. split; [ | split; [ | split; [ | split ] ] ].
  - unfold convert_time_to_iso.
    assert (Ht : truthy (Some (date_string y m d)) = true) by reflexivity.
    assert (Ht' : truthy (Some (time_string lz h mi pm)) = true).
    { destruct (hour_string_head lz h Hh) as (c & t & E & _).
      unfold truthy, time_string. rewrite E. reflexivity. }
    rewrite Ht, Ht'. cbn [negb orb fstr].
    rewrite strptime_valid by assumption. cbn [bind].
    fold dt. rewrite strftime_iso. subst iso dt.
    cbn [year month day hour minute second]. reflexivity.
  - intros Hy.
    assert (E : iso = date_string y m d ++ "T" ++ pad2 (hour24 h pm) ++ ":"
                        ++ pad2 mi ++ ":00" ++ get_pst_offset dt).
    { subst iso. rewrite (year_Y_four_digits y Hy). unfold date_string.
      rewrite !append_assoc. reflexivity. }
    split; [ exact E | ]. rewrite E.
    apply iso_form_rendered, get_pst_offset_cases.
  - intros Hy. apply iso_form_short_year; [ exact Hy | ].
    apply get_pst_offset_cases.
  - vm_compute. reflexivity.
  - vm_compute. reflexivity.
Qed.

Lemma convert_time_to_iso_valid_witness :
  convert_time_to_iso (Some (date_string 2026 3 8)) (Some (time_string false 2 0 false))
  = Ok (Some "2026-03-08T02:00:00-07:00").
Proof.
  refine (proj1 (convert_time_to_iso_valid 2026 3 8 false 2 0 false _ _ _));
    [ reflexivity | lia | lia ].
Defined.

(** C4 as stated fails below the year 1000: 0999-06-15 is a valid date
    string, and its conversion starts with 999, one character short of
    the form YYYY-MM-DDTHH:MM:SS-HH:MM. *)
Lemma convert_time_to_iso_year_999_counterexample :
  check_date_fields 999 6 15 = true
  /\ date_string 999 6 15 = "0999-06-15"
  /\ convert_time_to_iso (Some "0999-06-15") (Some "05:35 AM")
     = Ok (Some "999-06-15T05:35:00-08:00")
  /\ iso_form "999-06-15T05:35:00-08:00" = false.
Proof. repeat split. Qed.

(** ** The raw converter *)

Lemma strptime_raises_ValueError (s : string) (e : exn) :
  strptime s = Raise e -> e = ValueError.
Proof.
  assert (Hint : forall t n e', int_digits n t = Raise e' -> e' = ValueError).
  { induction t as [ | c t IH]; cbn; intros n e' H; [ discriminate | ].
    destruct (is_digit c); [ eauto | congruence ]. }
  assert (Hi : forall t e', int t = Raise e' -> e' = ValueError).
  { unfold int. intros t e' H. destruct (lstrip t); [ congruence | eauto ]. }
  unfold strptime.
  destruct (format_regex_match s) as [[f rest] | ]; [ | congruence ].
  destruct (negb (rest =? "")%string); [ congruence | ].
  destruct (int (g_Y f)) eqn:E1; cbn [bind]; [ | intros [= <-]; eauto ].
  destruct (int (g_m f)) eqn:E2; cbn [bind]; [ | intros [= <-]; eauto ].
  destruct (int (g_d f)) eqn:E3; cbn [bind]; [ | intros [= <-]; eauto ].
  destruct (int (g_I f)) eqn:E4; cbn [bind]; [ | intros [= <-]; eauto ].
  destruct (int (g_M f)) eqn:E5; cbn [bind]; [ | intros [= <-]; eauto ].
  destruct (check_date_fields a a0 a1); congruence.
Qed.

(** What [convert_time_to_iso] returns, case by case. *)
Lemma convert_time_to_iso_cases (date_str time_str : option string) :
  convert_time_to_iso date_str time_str =
    if negb (truthy date_str) || negb (truthy time_str) then Ok None
    else match strptime (fstr date_str ++ " " ++ fstr time_str) with
         | Ok dt => Ok (Some (strftime dt ("%Y-%m-%dT%H:%M:%S" ++ get_pst_offset dt)))
         | Raise _ => Ok None
         end.
Proof.
  unfold convert_time_to_iso.
  destruct (negb (truthy date_str) || negb (truthy time_str)); [ reflexivity | ].
  destruct (strptime _) as [dt | e] eqn:E; cbn [bind]; [ reflexivity | ].
  now rewrite (strptime_raises_ValueError _ _ E).
Qed.

Lemma convert_time_to_iso_returns (date_str time_str : option string) :
  exists r, convert_time_to_iso date_str time_str = Ok r.
Proof.
  rewrite convert_time_to_iso_cases.
  destruct (negb (truthy date_str) || negb (truthy time_str)); [ eauto | ].
  destruct (strptime _); eauto.
Qed.

(** C5. [convert_time_to_iso] returns on every pair of arguments: the
    empty result [None] when an argument is absent or empty and when the
    text does not parse, a timestamp otherwise; no exception leaves it,
    and the empty result is no timestamp. *)
Theorem convert_time_to_iso_never_raises (date_str time_str : option string) :
  (exists r, convert_time_to_iso date_str time_str = Ok r)
  /\ (truthy date_str = false \/ truthy time_str = false ->
      convert_time_to_iso date_str time_str = Ok None)
  /\ (forall e, strptime (fstr date_str ++ " " ++ fstr time_str) = Raise e ->
      convert_time_to_iso date_str time_str = Ok None)
  /\ (forall dt, truthy date_str = true -> truthy time_str = true ->
      strptime (fstr date_str ++ " " ++ fstr time_str) = Ok dt ->
      exists s, convert_time_to_iso date_str time_str = Ok (Some s)
                /\ Ok (Some s) <> Ok (@None string)).
Proof.
  rewrite convert_time_to_iso_cases.
  split; [ | split; [ | split ] ].
  - rewrite <- convert_time_to_iso_cases. apply convert_time_to_iso_returns.
  - intros [-> | ->]; cbn [negb orb]; [ reflexivity | ].
    now rewrite orb_true_r.
  - intros e ->. now destruct (negb (truthy date_str) || negb (truthy time_str)).
  - intros dt -> -> ->. cbn [negb orb]. eexists; split; [ reflexivity | discriminate ].
Qed.

Lemma main_loop_entries (raw_data : list raw_item) :
  forall idx acc,
    main_loop idx raw_data acc =
    (entries <- entries_from idx raw_data ;; Ok (acc ++ entries)%list).
Proof.
  induction raw_data as [ | item rest IH]; intros idx acc; cbn [main_loop entries_from bind].
  - now rewrite app_nil_r.
  - destruct (ekadashi_entry idx item) as [entry | e]; cbn [bind]; [ | reflexivity ].
    rewrite IH. destruct (entries_from (idx + 1) rest); cbn [bind]; [ | reflexivity ].
    now rewrite <- app_assoc.
Qed.

Lemma has_fields_lookup (item : raw_item) (k : string) :
  has_fields item = true -> In k raw_fields -> exists v, lookup k item = Some v.
Proof.
  unfold has_fields. rewrite forallb_forall. intros H Hk.
  specialize (H k Hk). destruct (lookup k item); [ eauto | discriminate ].
Qed.

(** One raw entry with its five fields always yields its output entry:
    the two instants are the conversions of their own strings, whatever
    these give. *)
Lemma ekadashi_entry_returns (idx : Z) (item : raw_item) :
  has_fields item = true ->
  exists name fasting_date parana_date time_start time_end iso_start iso_end,
    lookup "name" item = Some name
    /\ lookup "fasting_date" item = Some fasting_date
    /\ lookup "parana_date" item = Some parana_date
    /\ lookup "parana_start" item = Some time_start
    /\ lookup "parana_end" item = Some time_end
    /\ convert_time_to_iso parana_date time_start = Ok iso_start
    /\ convert_time_to_iso parana_date time_end = Ok iso_end
    /\ ekadashi_entry idx item =
       Ok (JObj [("id", JInt (idx + 1));
                 ("name", JObj [("en", to_json name)]);
                 ("timing", JObj [("PST", JObj [
                    ("date", to_json fasting_date);
                    ("parana_start", to_json iso_start);
                    ("parana_end", to_json iso_end)])])]).
Proof.
  intros H.
  destruct (has_fields_lookup item "name" H) as [name En]; [ cbn; tauto | ].
  destruct (has_fields_lookup item "fasting_date" H) as [fd Ef]; [ cbn; tauto | ].
  destruct (has_fields_lookup item "parana_date" H) as [pd Ep]; [ cbn; tauto | ].
  destruct (has_fields_lookup item "parana_start" H) as [ts Es]; [ cbn; tauto | ].
  destruct (has_fields_lookup item "parana_end" H) as [te Ee]; [ cbn; tauto | ].
  destruct (convert_time_to_iso_returns pd ts) as [rs Hs].
  destruct (convert_time_to_iso_returns pd te) as [re He].
  exists name, fd, pd, ts, te, rs, re.
  repeat (split; [ assumption | ]).
  unfold ekadashi_entry, item_get.
  rewrite En, Ef, Ep, Es, Ee. cbn [bind]. rewrite Hs, He. reflexivity.
Qed.

(** A raw entry that lacks one of the five keys is another matter: the
    subscript raises and nothing catches it. *)
Lemma ekadashi_entry_missing_key (idx : Z) (item : raw_item) :
  has_fields item = false -> ekadashi_entry idx item = Raise KeyError.
Proof.
  unfold has_fields, raw_fields, ekadashi_entry, item_get. cbn [forallb].
  destruct (lookup "fasting_date" item); cbn [bind];
    [ | reflexivity ].
  destruct (lookup "parana_date" item) as [pd | ]; cbn [bind];
    [ | reflexivity ].
  destruct (lookup "parana_start" item) as [ts | ]; cbn [bind];
    [ | reflexivity ].
  destruct (convert_time_to_iso_returns pd ts) as [rs ->]. cbn [bind].
  destruct (lookup "parana_end" item) as [te | ]; cbn [bind];
    [ | reflexivity ].
  destruct (convert_time_to_iso_returns pd te) as [re ->]. cbn [bind].
  destruct (lookup "name" item); cbn [bind andb]; [ discriminate | reflexivity ].
Qed.

Lemma entries_from_returns (raw_data : list raw_item) :
  Forall (fun item => has_fields item = true) raw_data ->
  forall idx, exists entries, entries_from idx raw_data = Ok entries.
Proof.
  induction 1 as [ | item rest Hi _ IH]; intros idx; cbn [entries_from].
  - eauto.
  - destruct (ekadashi_entry_returns idx item Hi) as (? & ? & ? & ? & ? & ? & ? & H).
    decompose [and] H. destruct (IH (idx + 1)) as [es Hes].
    match goal with E : ekadashi_entry _ _ = _ |- _ => rewrite E end.
    rewrite Hes. cbn [bind]. eauto.
Qed.

(** Position by position: the entry at position [i] is the loop body run
    on the item at position [i] with index [idx + i]. *)
Lemma entries_from_nth (raw_data : list raw_item) :
  forall idx entries,
    entries_from idx raw_data = Ok entries ->
    List.length entries = List.length raw_data
    /\ forall i item, nth_error raw_data i = Some item ->
         exists entry, nth_error entries i = Some entry
                       /\ ekadashi_entry (idx + Z.of_nat i) item = Ok entry.
Proof.
  induction raw_data as [ | item0 rest IH]; intros idx entries; cbn [entries_from].
  - intros [= <-]. split; [ reflexivity | ]. intros [ | i] item; discriminate.
  - destruct (ekadashi_entry idx item0) as [e0 | ] eqn:E0; cbn [bind]; [ | discriminate ].
    destruct (entries_from (idx + 1) rest) as [es | ] eqn:Es; cbn [bind]; [ | discriminate ].
    intros [= <-]. destruct (IH _ _ Es) as [Hlen Hnth].
    split; [ cbn; now rewrite Hlen | ].
    intros [ | i] item; cbn [nth_error].
    + intros [= <-]. exists e0. split; [ reflexivity | ].
      now replace (idx + Z.of_nat 0) with idx by lia.
    + intros Hi. destruct (Hnth i item Hi) as (entry & Hn & He).
      exists entry. split; [ assumption | ].
      now replace (idx + Z.of_nat (S i)) with (idx + 1 + Z.of_nat i) by lia.
Qed.

Lemma ekadashi_entry_id (idx : Z) (item : raw_item) (entry : json) :
  ekadashi_entry idx item = Ok entry ->
  exists d, entry = JObj d /\ lookup "id" d = Some (JInt (idx + 1)).
Proof.
  unfold ekadashi_entry.
  repeat match goal with
         | |- context [bind ?m _] => destruct m; cbn [bind]; [ | discriminate ]
         end.
  intros [= <-]. eexists; split; reflexivity.
Qed.

Lemma entries_from_ids (raw_data : list raw_item) :
  forall idx entries,
    entries_from idx raw_data = Ok entries ->
    ids entries =
    map (fun i => Some (JInt (idx + Z.of_nat i))) (seq 1 (List.length raw_data)).
Proof.
  induction raw_data as [ | item0 rest IH]; intros idx entries; cbn [entries_from].
  - intros [= <-]. reflexivity.
  - destruct (ekadashi_entry idx item0) as [e0 | ] eqn:E0; cbn [bind]; [ | discriminate ].
    destruct (entries_from (idx + 1) rest) as [es | ] eqn:Es; cbn [bind]; [ | discriminate ].
    intros [= <-]. cbn [List.length seq map ids].
    destruct (ekadashi_entry_id _ _ _ E0) as (d & -> & Hid). rewrite Hid.
    f_equal. fold (ids es). rewrite (IH _ _ Es).
    rewrite <- (seq_shift _ 1), map_map. apply map_ext. intros i. do 2 f_equal. lia.
Qed.

Lemma bad_field_no_value (date_str time_str : option string) (r : option string) :
  bad_field date_str time_str ->
  convert_time_to_iso date_str time_str = Ok r -> r = None.
Proof.
  rewrite convert_time_to_iso_cases. intros [H | [H | [e H]]]; rewrite H.
  - cbn [negb orb]. congruence.
  - cbn [negb]. rewrite orb_true_r. congruence.
  - destruct (negb (truthy date_str) || negb (truthy time_str)); congruence.
Qed.

(** C6. When every raw entry carries its five fields, the loop of [main]
    runs to the end whatever the date and time strings hold: output
    entry [i] is built from raw entry [i] alone, each of its two instants
    is the conversion of its own strings, and a string that is absent,
    empty or unparsable puts null in that one field. *)
Theorem main_loop_recovers_per_field (raw_data : list raw_item) :
  Forall (fun item => has_fields item = true) raw_data ->
  exists entries,
    main_loop 0 raw_data [] = Ok entries
    /\ List.length entries = List.length raw_data
    /\ forall i item, nth_error raw_data i = Some item ->
       exists name fasting_date parana_date time_start time_end iso_start iso_end,
         lookup "name" item = Some name
         /\ lookup "fasting_date" item = Some fasting_date
         /\ lookup "parana_date" item = Some parana_date
         /\ lookup "parana_start" item = Some time_start
         /\ lookup "parana_end" item = Some time_end
         /\ convert_time_to_iso parana_date time_start = Ok iso_start
         /\ convert_time_to_iso parana_date time_end = Ok iso_end
         /\ (bad_field parana_date time_start -> iso_start = None)
         /\ (bad_field parana_date time_end -> iso_end = None)
         /\ nth_error entries i =
            Some (output_entry (Z.of_nat i + 1) name fasting_date iso_start iso_end).
Proof.
  intros Hall.
  destruct (entries_from_returns raw_data Hall 0) as [entries He].
  exists entries. rewrite main_loop_entries, He. cbn [bind app].
  destruct (entries_from_nth _ _ _ He) as [Hlen Hnth].
  split; [ reflexivity | split; [ assumption | ] ].
  intros i item Hi.
  destruct (Hnth i item Hi) as (entry & Hn & Hentry).
  rewrite Forall_forall in Hall.
  destruct (ekadashi_entry_returns (0 + Z.of_nat i) item
              (Hall item (nth_error_In _ _ Hi)))
    as (name & fd & pd & ts & te & rs & re & En & Ef & Ep & Es & Ee & Hs & Hr & Hout).
  exists name, fd, pd, ts, te, rs, re.
  repeat (split; [ assumption | ]).
  split; [ intros Hb; exact (bad_field_no_value _ _ _ Hb Hs) | ].
  split; [ intros Hb; exact (bad_field_no_value _ _ _ Hb Hr) | ].
  rewrite Hn. f_equal. rewrite Hentry in Hout. now inversion Hout.
Qed.

Lemma main_loop_recovers_per_field_witness :
  Forall (fun item => has_fields item = true) sample_raw
  /\ exists entries,
       main_loop 0 sample_raw [] = Ok entries
       /\ List.length entries = 2%nat.
Proof.
  assert (H : Forall (fun item => has_fields item = true) sample_raw)
    by (repeat constructor).
  split; [ exact H | ].
  destruct (main_loop_recovers_per_field sample_raw H) as (entries & Hrun & Hlen & _).
  exists entries. split; assumption.
Defined.

(** C8. The document [main] builds lists one entry per raw entry, in
    input order, entry [i] (from zero) being the loop body run with index
    [i], so that the identifiers read 1, 2, .., N; and [main] does build
    it when every raw entry carries its five fields. *)
Theorem main_identifiers (today : string) (raw_data : list raw_item) :
  (forall doc, main today raw_data = Ok doc ->
     exists entries,
       getitem doc "ekadashis" = Ok (JArr entries)
       /\ List.length entries = List.length raw_data
       /\ ids entries = one_to (List.length raw_data)
       /\ forall i item, nth_error raw_data i = Some item ->
          exists d, nth_error entries i = Some (JObj d)
                    /\ ekadashi_entry (Z.of_nat i) item = Ok (JObj d)
                    /\ lookup "id" d = Some (JInt (Z.of_nat i + 1)))
  /\ (Forall (fun item => has_fields item = true) raw_data ->
      exists doc, main today raw_data = Ok doc).
Proof.
  unfold main. rewrite main_loop_entries. split.
  - intros doc. destruct (entries_from 0 raw_data) as [entries | ] eqn:He;
      cbn [bind app]; [ | discriminate ].
    intros [= <-]. exists entries.
    destruct (entries_from_nth _ _ _ He) as [Hlen Hnth].
    split; [ reflexivity | split; [ assumption | split ] ].
    + rewrite (entries_from_ids _ _ _ He). reflexivity.
    + intros i item Hi. destruct (Hnth i item Hi) as (entry & Hn & Hentry).
      cbn [Z.add] in Hentry.
      destruct (ekadashi_entry_id _ _ _ Hentry) as (d & -> & Hid).
      exists d. repeat split; assumption.
  - intros Hall. destruct (entries_from_returns raw_data Hall 0) as [entries ->].
    cbn [bind]. eauto.
Qed.

(** ** The corrector *)

Import FixEkadashiData.

Lemma lookup_store_same {V : Type} (k : string) (v : V) (d : list (string * V)) :
  lookup k (store k v d) = Some v.
Proof.
  induction d as [ | [k' v'] d IH]; cbn.
  - now rewrite String.eqb_refl.
  - destruct (String.eqb k k') eqn:E; cbn; rewrite E; [ reflexivity | exact IH ].
Qed.

Lemma lookup_store_other {V : Type} (k k' : string) (v : V) (d : list (string * V)) :
  k <> k' -> lookup k (store k' v d) = lookup k d.
Proof.
  intros Hne. induction d as [ | [k0 v0] d IH]; cbn.
  - destruct (String.eqb_spec k k'); [ contradiction | reflexivity ].
  - destruct (String.eqb_spec k' k0) as [-> | Hk]; cbn.
    + destruct (String.eqb_spec k k0); [ contradiction | reflexivity ].
    + destruct (String.eqb_spec k k0); [ reflexivity | exact IH ].
Qed.

Lemma store_present {V : Type} (k : string) (v : V) (d : list (string * V)) :
  lookup k d = Some v -> store k v d = d.
Proof.
  induction d as [ | [k' v'] d IH]; cbn; [ discriminate | ].
  destruct (String.eqb_spec k k') as [-> | Hk].
  - now intros [= ->].
  - intros H. now rewrite IH.
Qed.

Lemma store_keys {V : Type} (k : string) (v v' : V) (d : list (string * V)) :
  lookup k d = Some v' -> map fst (store k v d) = map fst d.
Proof.
  induction d as [ | [k0 v0] d IH]; cbn; [ discriminate | ].
  destruct (String.eqb_spec k k0) as [-> | Hk]; cbn; [ reflexivity | ].
  intros H. now rewrite IH.
Qed.

(** What [get] tells about its receiver. *)
Lemma get_inv (obj : json) (k : string) (dflt v : json) :
  get obj k dflt = Ok v ->
  exists d, obj = JObj d
            /\ v = match lookup k d with Some x => x | None => dflt end.
Proof.
  destruct obj as [ | | | | | | d]; cbn; try discriminate.
  destruct (lookup k d) eqn:E; intros [= <-]; exists d; rewrite E; auto.
Qed.

Lemma startswith_inv (j : json) (p : string) (b : bool) :
  startswith j p = Ok b -> exists s, j = JStr s /\ b = String.prefix p s.
Proof. destruct j; cbn; try discriminate. intros [= <-]. eauto. Qed.

Lemma contains_inv (table : dict) (k : json) (hit : option json) :
  contains table k = Ok hit ->
  hashable k = true
  /\ hit = match k with JStr n => lookup n table | _ => None end.
Proof. destruct k; cbn; try discriminate; intros [= <-]; auto. Qed.

Lemma name_en_inv (e v : json) :
  name_en e = Ok v -> v = name_of e.
Proof.
  unfold name_en, name_of, field. intros H.
  destruct (get e "name" (JObj [])) as [n | ] eqn:E1; cbn [bind] in H; [ | discriminate ].
  apply get_inv in E1. destruct E1 as (d & -> & ->).
  apply get_inv in H. destruct H as (d' & Hd' & ->).
  destruct (lookup "name" d) as [n | ]; [ subst n; reflexivity | ].
  injection Hd' as <-. reflexivity.
Qed.

Lemma date_of_spec (e timing ist_timing date_str : json) :
  get e "timing" (JObj []) = Ok timing ->
  get timing "IST" (JObj []) = Ok ist_timing ->
  get ist_timing "date" (JStr "") = Ok date_str ->
  (exists d, e = JObj d) /\ date_str = date_of e.
Proof.
  intros H1 H2 H3.
  apply get_inv in H1. destruct H1 as (d & -> & ->).
  apply get_inv in H2. destruct H2 as (t & Ht & ->).
  apply get_inv in H3. destruct H3 as (i & Hi & ->).
  split; [ eauto | ].
  unfold date_of, ist_of, field.
  destruct (lookup "timing" d) as [tv | ].
  - subst tv. destruct (lookup "IST" t) as [iv | ].
    + subst iv. reflexivity.
    + injection Hi as <-. reflexivity.
  - injection Ht as <-. cbn [lookup] in Hi. injection Hi as <-. reflexivity.
Qed.

(** A date in 2026 is a date found in the event: the event has its
    timing block and the block its IST record. *)
Lemma in_2026_has_timing (e : json) :
  ist_date_in_2026 e = true ->
  exists d t i, e = JObj d /\ lookup "timing" d = Some (JObj t)
                /\ lookup "IST" t = Some i.
Proof.
  unfold ist_date_in_2026, date_of, ist_of, field.
  destruct e as [ | | | | | | d]; try (cbn; discriminate).
  destruct (lookup "timing" d) as [[ | | | | | | t] | ] eqn:Ht;
    try (cbn; discriminate).
  destruct (lookup "IST" t) as [i | ] eqn:Hi; try (cbn; discriminate).
  intros _. exists d, t, i. auto.
Qed.

Lemma setitem_at_ist (e c : json) :
  ist_date_in_2026 e = true ->
  setitem_at e ["timing"] "IST" c = Ok (set_ist c e).
Proof.
  intros H. destruct (in_2026_has_timing e H) as (d & t & i & -> & Ht & Hi).
  cbn. rewrite Ht. cbn. reflexivity.
Qed.

(** One iteration that returns: what it did. *)
Lemma loop_body_inv (table : dict) (acc : list json) (out : list log_line)
    (e : json) (st' : state) :
  loop_body table (acc, out) e = Ok st' ->
  (exists d, e = JObj d)
  /\ st' = ((if ist_date_in_2026 e then acc ++ [apply_correction table e] else acc)%list,
            (out ++ lines table e)%list)
  /\ (ist_date_in_2026 e = true -> hashable (name_of e) = true)
  /\ name_en e = Ok (name_of e).
Proof.
  unfold loop_body. intros H.
  destruct (get e "timing" (JObj [])) as [timing | ] eqn:E1; cbn [bind] in H; [ | discriminate ].
  destruct (get timing "IST" (JObj [])) as [ist_timing | ] eqn:E2; cbn [bind] in H; [ | discriminate ].
  destruct (get ist_timing "date" (JStr "")) as [date_str | ] eqn:E3; cbn [bind] in H; [ | discriminate ].
  destruct (date_of_spec _ _ _ _ E1 E2 E3) as [Hobj ->]. clear E1 E2 E3.
  destruct (startswith (date_of e) "2026") as [b | ] eqn:E4; cbn [bind] in H; [ | discriminate ].
  apply startswith_inv in E4. destruct E4 as (s & Hs & ->).
  assert (Hin : ist_date_in_2026 e = String.prefix "2026" s)
    by (unfold ist_date_in_2026; now rewrite Hs).
  split; [ assumption | ]. unfold lines. rewrite Hin.
  destruct (String.prefix "2026" s) eqn:Hp.
  - destruct (name_en e) as [n | ] eqn:E5; cbn [bind] in H; [ | discriminate ].
    pose proof (name_en_inv _ _ E5) as ->.
    destruct (contains table (name_of e)) as [hit | ] eqn:E6; cbn [bind] in H; [ | discriminate ].
    apply contains_inv in E6. destruct E6 as [Hh ->].
    fold (table_hit table e) in H. unfold apply_correction.
    split; [ | auto ].
    destruct (table_hit table e) as [c | ].
    + rewrite setitem_at_ist in H by assumption. cbn [bind] in H.
      destruct (getitem c "date") as [shown | ] eqn:E7; cbn [bind] in H; [ | discriminate ].
      injection H as <-. do 3 f_equal.
      destruct c; cbn in E7; try discriminate. cbn [field].
      destruct (lookup "date" fields0); congruence.
    + now injection H as <-.
  - destruct (name_en e) as [n | ] eqn:E5; cbn [bind] in H; [ | discriminate ].
    pose proof (name_en_inv _ _ E5) as ->. injection H as <-.
    split; [ reflexivity | split; [ discriminate | reflexivity ] ].
Qed.

Lemma filter_loop_inv (table : dict) (items : list json) :
  forall acc out st',
    filter_loop table items (acc, out) = Ok st' ->
    st' = ((acc ++ kept table items)%list,
           (out ++ flat_map (lines table) items)%list)
    /\ Forall (fun e => is_obj e = true) items
    /\ Forall (fun e => (ist_date_in_2026 e = true -> hashable (name_of e) = true)
                        /\ name_en e = Ok (name_of e))
         items.
Proof.
  unfold kept.
  induction items as [ | e rest IH]; intros acc out st'; cbn [filter_loop].
  - intros [= <-]. cbn. now rewrite !app_nil_r.
  - destruct (loop_body table (acc, out) e) as [st1 | ] eqn:E; cbn [bind]; [ | discriminate ].
    apply loop_body_inv in E. destruct E as ((d & ->) & -> & Hh & Hn).
    intros H. apply IH in H. destruct H as (-> & Hobj & Hhash).
    split; [ | split; constructor; auto ].
    cbn [filter flat_map].
    destruct (ist_date_in_2026 (JObj d)); cbn [map]; now rewrite <- !app_assoc.
Qed.

Lemma apply_correction_obj (table : dict) (e : json) :
  is_obj e = true -> is_obj (apply_correction table e) = true.
Proof.
  unfold apply_correction, set_ist. destruct (table_hit table e); [ | auto ].
  destruct e as [ | | | | | | d]; try discriminate.
  now destruct (lookup "timing" d) as [[] | ].
Qed.

Lemma renumber_objects (items : list json) :
  Forall (fun e => is_obj e = true) items ->
  forall i, renumber i items = Ok (renumbered i items).
Proof.
  induction 1 as [ | e rest He _ IH]; intros i; cbn [renumber renumbered].
  - reflexivity.
  - destruct e; try discriminate. cbn [setitem bind set_id].
    now rewrite IH.
Qed.

Lemma kept_objects (table : dict) (items : list json) :
  Forall (fun e => is_obj e = true) items ->
  Forall (fun e => is_obj e = true) (kept table items).
Proof.
  unfold kept. rewrite !Forall_forall. intros H e He.
  apply in_map_iff in He. destruct He as (e0 & <- & He0).
  apply filter_In in He0. apply apply_correction_obj, H, He0.
Qed.

Lemma getitem_inv (obj : json) (k : string) (v : json) :
  getitem obj k = Ok v -> exists d, obj = JObj d /\ lookup k d = Some v.
Proof.
  destruct obj as [ | | | | | | d]; cbn; try discriminate.
  destruct (lookup k d) eqn:E; [ | discriminate ]. intros [= <-]. eauto.
Qed.

Lemma setitem_inv (obj : json) (k : string) (v obj' : json) :
  setitem obj k v = Ok obj' -> exists d, obj = JObj d /\ obj' = JObj (store k v d).
Proof.
  destruct obj as [ | | | | | | d]; cbn; try discriminate. intros [= <-]. eauto.
Qed.

Lemma store_store {V : Type} (k : string) (v v' : V) (d : list (string * V)) :
  store k v' (store k v d) = store k v' d.
Proof.
  induction d as [ | [k0 v0] d IH]; cbn.
  - now rewrite String.eqb_refl.
  - destruct (String.eqb k k0) eqn:E; cbn; rewrite E; [ reflexivity | now rewrite IH ].
Qed.

(** A run of the corrector that returns: the shape of the input and the
    document produced. *)
Lemma corrector_inv (table : dict) (data out : json) (log : list log_line) :
  corrector table data = Ok (out, log) ->
  exists d tzs ist items,
    data = JObj d
    /\ lookup "timezones" d = Some (JObj tzs)
    /\ lookup "IST" tzs = Some (JObj ist)
    /\ events data = Ok items
    /\ Forall (fun e => is_obj e = true) items
    /\ Forall (fun e => (ist_date_in_2026 e = true -> hashable (name_of e) = true)
                        /\ name_en e = Ok (name_of e))
         items
    /\ out = JObj (store "ekadashis" (JArr (renumbered 1 (kept table items)))
                    (with_metadata d tzs ist)).
Proof.
  unfold corrector. intros H.
  destruct (setitem data "date_range" date_range_2026) as [data1 | ] eqn:E1;
    cbn [bind] in H; [ | discriminate ].
  apply setitem_inv in E1. destruct E1 as (d & -> & ->).
  cbn [setitem_at] in H.
  destruct (getitem (JObj (store "date_range" date_range_2026 d)) "timezones")
    as [tzv | ] eqn:E2; cbn [bind] in H; [ | discriminate ].
  apply getitem_inv in E2. destruct E2 as (d1 & [= <-] & Htz).
  rewrite lookup_store_other in Htz by discriminate.
  destruct (getitem tzv "IST") as [istv | ] eqn:E3; cbn [bind] in H; [ | discriminate ].
  apply getitem_inv in E3. destruct E3 as (tzs & -> & Hist).
  destruct (setitem istv "cities" (JArr [JStr "India"])) as [istv' | ] eqn:E4;
    cbn [bind] in H; [ | discriminate ].
  apply setitem_inv in E4. destruct E4 as (ist & -> & ->).
  cbn [setitem bind] in H.
  fold (with_metadata d tzs ist) in H.
  destruct (getitem (JObj (with_metadata d tzs ist)) "ekadashis") as [ev | ] eqn:E5;
    cbn [bind] in H; [ | discriminate ].
  assert (Hev : getitem (JObj d) "ekadashis" = Ok ev).
  { apply getitem_inv in E5. destruct E5 as (d2 & [= <-] & Hl).
    unfold with_metadata in Hl.
    rewrite !lookup_store_other in Hl by discriminate.
    cbn. now rewrite Hl. }
  destruct (iterate ev) as [items | ] eqn:E6; cbn [bind] in H; [ | discriminate ].
  destruct (filter_loop table items ([], [])) as [[filtered lg] | ] eqn:E7;
    cbn [bind] in H; [ | discriminate ].
  apply filter_loop_inv in E7. destruct E7 as ([= -> ->] & Hobj & Hhash).
  cbn [app] in H.
  rewrite (renumber_objects _ (kept_objects table _ Hobj)) in H.
  cbn [bind] in H. rewrite store_store in H. injection H as <- <-.
  exists d, tzs, ist, items.
  repeat (split; [ assumption || reflexivity | ]); try reflexivity.
  unfold events. rewrite Hev. cbn [bind]. split; [ assumption | auto ].
Qed.

Lemma renumbered_length (items : list json) :
  forall i, List.length (renumbered i items) = List.length items.
Proof. induction items as [ | e rest IH]; intros i; cbn; [ | rewrite IH ]; reflexivity. Qed.

Lemma renumbered_nth (items : list json) :
  forall i n e, nth_error items n = Some e ->
    nth_error (renumbered i items) n = Some (set_id (i + Z.of_nat n) e).
Proof.
  induction items as [ | e0 rest IH]; intros i [ | n] e; cbn [nth_error renumbered];
    try discriminate.
  - intros [= <-]. now replace (i + Z.of_nat 0) with i by lia.
  - intros H. rewrite (IH (i + 1) n e H). do 2 f_equal. lia.
Qed.

Lemma renumbered_ids (items : list json) :
  Forall (fun e => is_obj e = true) items ->
  forall i, ids (renumbered i items) =
            map (fun n => Some (JInt (i + Z.of_nat n))) (seq 0 (List.length items)).
Proof.
  induction 1 as [ | e rest He _ IH]; intros i; cbn [renumbered ids map List.length seq].
  - reflexivity.
  - destruct e; try discriminate. cbn [set_id]. rewrite lookup_store_same.
    replace (i + Z.of_nat 0) with i by lia. f_equal.
    fold (ids (renumbered (i + 1) rest)). rewrite IH.
    rewrite <- (seq_shift _ 0), map_map. apply map_ext. intros n. do 2 f_equal. lia.
Qed.

Lemma getitem_store (k : string) (v : json) (d : dict) :
  getitem (JObj (store k v d)) k = Ok v.
Proof. cbn. now rewrite lookup_store_same. Qed.


(** A date in 2026 is read from an IST record that is an object. *)
Lemma in_2026_shape (e : json) :
  ist_date_in_2026 e = true ->
  exists d t i s,
    e = JObj d /\ lookup "timing" d = Some (JObj t)
    /\ lookup "IST" t = Some (JObj i) /\ lookup "date" i = Some (JStr s)
    /\ String.prefix "2026" s = true.
Proof.
  unfold ist_date_in_2026, date_of, ist_of, field.
  destruct e as [ | | | | | | d]; try (cbn; discriminate).
  destruct (lookup "timing" d) as [[ | | | | | | t] | ] eqn:Ht;
    try (cbn; discriminate).
  destruct (lookup "IST" t) as [[ | | | | | | i] | ] eqn:Hi;
    try (cbn; discriminate).
  destruct (lookup "date" i) as [[ | | | | s | | ] | ] eqn:Hd;
    try (cbn; discriminate).
  intros Hp. exists d, t, i, s. auto.
Qed.

(** The kept event, corrected and numbered, against the event read. *)
Lemma kept_event_frame (table : dict) (n : Z) (e : json) :
  ist_date_in_2026 e = true ->
  let e' := set_id n (apply_correction table e) in
  field "id" e' = Some (JInt n)
  /\ (forall k, k <> "timing" -> k <> "id" -> field k e' = field k e)
  /\ (exists t t', field "timing" e = Some (JObj t)
                   /\ field "timing" e' = Some (JObj t')
                   /\ map fst t' = map fst t
                   /\ forall tz, tz <> "IST" -> lookup tz t' = lookup tz t)
  /\ (forall c, table_hit table e = Some c -> ist_of e' = Some c)
  /\ (table_hit table e = None -> field "timing" e' = field "timing" e).
Proof.
  intros H. destruct (in_2026_shape e H) as (d & t & i & s & -> & Ht & Hi & _).
  unfold apply_correction, set_ist. rewrite Ht.
  destruct (table_hit table (JObj d)) as [c | ]; cbn [set_id field];
    (split; [ apply lookup_store_same | ]).
  - split; [ | split; [ | split ] ].
    + intros k Hk1 Hk2. now rewrite !lookup_store_other.
    + exists t, (store "IST" c t).
      rewrite lookup_store_other, lookup_store_same by discriminate.
      repeat split; [ assumption | apply (store_keys _ _ _ _ Hi) | ].
      intros tz Htz. now apply lookup_store_other.
    + intros c' [= <-]. unfold ist_of. cbn [field].
      rewrite lookup_store_other, lookup_store_same by discriminate.
      cbn [field]. apply lookup_store_same.
    + discriminate.
  - split; [ | split; [ | split ] ].
    + intros k Hk1 Hk2. now rewrite lookup_store_other.
    + exists t, t. rewrite lookup_store_other by discriminate. auto.
    + discriminate.
    + intros _. now rewrite lookup_store_other.
Qed.


Lemma kept_event_name (table : dict) (n : Z) (e : json) :
  ist_date_in_2026 e = true ->
  name_of (set_id n (apply_correction table e)) = name_of e.
Proof.
  intros H.
  destruct (kept_event_frame table n e H) as (_ & Hf & _).
  unfold name_of. now rewrite (Hf "name") by discriminate.
Qed.


Lemma name_en_readable (d : dict) :
  name_readable d -> name_en (JObj d) = Ok (name_of (JObj d)).
Proof.
  unfold name_en, name_of. cbn [get field].
  intros [H | [n H]]; rewrite H; cbn [bind get field lookup]; [ reflexivity | ].
  now destruct (lookup "en" n).
Qed.


(** ** Running the corrector on its own output *)

Lemma name_en_same_name (d d' : dict) :
  lookup "name" d' = lookup "name" d -> name_en (JObj d') = name_en (JObj d).
Proof. unfold name_en. cbn [get]. now intros ->. Qed.

Lemma table_in_2026_lookup (table : dict) (n : string) (c : json) :
  table_in_2026 table = true -> lookup n table = Some c -> record_in_2026 c = true.
Proof.
  unfold table_in_2026. induction table as [ | [k v] table IH]; cbn; [ discriminate | ].
  intros H. apply andb_prop in H. destruct H as [Hv Ht].
  destruct (String.eqb n k); [ now intros [= <-] | now apply IH ].
Qed.

(** An event of 2026 with a readable, hashable name that the table does
    not list is kept as it is. *)
Lemma loop_body_keeps (table : dict) (acc : list json) (out : list log_line)
    (e : json) :
  ist_date_in_2026 e = true -> name_en e = Ok (name_of e) ->
  hashable (name_of e) = true -> table_hit table e = None ->
  loop_body table (acc, out) e
  = Ok ((acc ++ [e])%list, (out ++ [Kept (name_of e) (date_of e)])%list).
Proof.
  intros H2026 Hn Hh Hhit.
  destruct (in_2026_shape e H2026) as (d & t & i & s & -> & Ht & Hi & Hd & Hp).
  assert (Hdate : date_of (JObj d) = JStr s).
  { unfold date_of, ist_of. cbn [field]. rewrite Ht. cbn [field]. rewrite Hi.
    cbn [field]. now rewrite Hd. }
  unfold loop_body. cbn [get]. rewrite Ht. cbn [bind get]. rewrite Hi.
  cbn [bind get]. rewrite Hd. cbn [bind startswith]. rewrite Hp, Hn.
  cbn [bind].
  assert (Hc : contains table (name_of (JObj d)) = Ok None).
  { unfold table_hit in Hhit. destruct (name_of (JObj d)); try discriminate; cbn;
      congruence. }
  rewrite Hc. cbn [bind]. now rewrite Hdate.
Qed.

(** What the first run leaves in a kept event is what the second run
    needs to keep it. *)
Lemma kept_event_stays (table : dict) (n : Z) (e : json) :
  table_in_2026 table = true ->
  ist_date_in_2026 e = true -> name_en e = Ok (name_of e) ->
  hashable (name_of e) = true ->
  let e' := set_id n (apply_correction table e) in
  ist_date_in_2026 e' = true /\ name_en e' = Ok (name_of e')
  /\ hashable (name_of e') = true.
Proof.
  intros Htab H2026 Hn Hh e'.
  destruct (kept_event_frame table n e H2026) as (_ & Hf & _ & Hc & Hnc).
  fold e' in Hf, Hc, Hnc.
  assert (Hname : name_of e' = name_of e) by now apply kept_event_name.
  split; [ | split ].
  - destruct (table_hit table e) as [c | ] eqn:Hhit.
    + specialize (Hc c eq_refl).
      assert (Hr : record_in_2026 c = true).
      { unfold table_hit in Hhit. destruct (name_of e); try discriminate.
        exact (table_in_2026_lookup _ _ _ Htab Hhit). }
      unfold ist_date_in_2026, date_of. rewrite Hc.
      unfold record_in_2026 in Hr.
      now destruct (field "date" c) as [[] | ].
    + specialize (Hnc eq_refl).
      unfold ist_date_in_2026, date_of, ist_of in *. now rewrite Hnc.
  - rewrite Hname, <- Hn.
    destruct (in_2026_shape e H2026) as (d & _ & _ & _ & -> & _).
    assert (Ho : is_obj e' = true).
    { subst e'. unfold set_id.
      pose proof (apply_correction_obj table (JObj d) eq_refl) as Ho.
      now destruct (apply_correction table (JObj d)). }
    destruct e' as [ | | | | | | d'] eqn:Ee'; try discriminate.
    apply name_en_same_name. apply (Hf "name"); discriminate.
  - now rewrite Hname.
Qed.

Lemma filter_loop_keeps_all (items : list json) :
  Forall (fun e => ist_date_in_2026 e = true /\ name_en e = Ok (name_of e)
                   /\ hashable (name_of e) = true) items ->
  forall acc out, exists out',
    filter_loop [] items (acc, out) = Ok ((acc ++ items)%list, out').
Proof.
  induction 1 as [ | e rest (H1 & H2 & H3) _ IH]; intros acc out; cbn [filter_loop].
  - exists out. now rewrite app_nil_r.
  - rewrite loop_body_keeps; try assumption.
    + cbn [bind]. destruct (IH (acc ++ [e])%list (out ++ [Kept (name_of e) (date_of e)])%list)
        as [out' ->].
      exists out'. now rewrite <- app_assoc.
    + unfold table_hit. now destruct (name_of e).
Qed.

Lemma renumbered_kept_stays (table : dict) (l : list json) :
  table_in_2026 table = true ->
  Forall (fun e => ist_date_in_2026 e = true /\ name_en e = Ok (name_of e)
                   /\ hashable (name_of e) = true) l ->
  forall i,
    Forall (fun e => ist_date_in_2026 e = true /\ name_en e = Ok (name_of e)
                     /\ hashable (name_of e) = true)
      (renumbered i (map (apply_correction table) l)).
Proof.
  intros Htab. induction 1 as [ | e rest (H1 & H2 & H3) _ IH]; intros i;
    cbn [map renumbered]; constructor.
  - now apply kept_event_stays.
  - apply IH.
Qed.

Lemma renumbered_again (l : list json) :
  forall i, renumbered i (renumbered i l) = renumbered i l.
Proof.
  induction l as [ | e rest IH]; intros i; cbn [renumbered]; [ reflexivity | ].
  rewrite IH. f_equal. destruct e; try reflexivity. cbn [set_id].
  now rewrite store_store.
Qed.

Lemma renumbered_objects (l : list json) :
  Forall (fun e => is_obj e = true) l ->
  forall i, Forall (fun e => is_obj e = true) (renumbered i l).
Proof.
  induction 1 as [ | e rest He _ IH]; intros i; cbn [renumbered]; constructor.
  - now destruct e.
  - apply IH.
Qed.



(** ** The corrector returns on documents of the expected shape *)

Lemma table_has_dates_lookup (table : dict) (n : string) (c : json) :
  table_has_dates table = true -> lookup n table = Some c ->
  exists v, getitem c "date" = Ok v.
Proof.
  unfold table_has_dates. induction table as [ | [k v] table IH]; cbn [forallb lookup snd];
    [ discriminate | ].
  intros H. apply andb_prop in H. destruct H as [Hv Ht].
  destruct (String.eqb n k); [ | now apply IH ].
  intros [= <-]. destruct v as [ | | | | | | d]; try discriminate.
  cbn in *. destruct (lookup "date" d); [ eauto | discriminate ].
Qed.

Lemma loop_body_returns (table : dict) (st : state) (e : json) :
  table_has_dates table = true -> well_shaped_event e = true ->
  exists st', loop_body table st e = Ok st'.
Proof.
  intros Htab H. destruct st as [acc out].
  unfold well_shaped_event in H.
  repeat (apply andb_prop in H; destruct H as [H ?]).
  destruct e as [ | | | | | | d]; try discriminate.
  assert (Hn : name_en (JObj d) = Ok (name_of (JObj d))).
  { apply name_en_readable. unfold name_readable. cbn [field] in *.
    destruct (lookup "name" d) as [[] | ]; try discriminate; eauto. }
  destruct (ist_date_in_2026 (JObj d)) eqn:H2026.
  - destruct (table_hit table (JObj d)) as [c | ] eqn:Hhit.
    + destruct (in_2026_shape _ H2026) as (d0 & t & i & s & [= <-] & Ht & Hi & Hd & Hp).
      unfold loop_body. cbn [get]. rewrite Ht. cbn [bind get]. rewrite Hi.
      cbn [bind get]. rewrite Hd. cbn [bind startswith]. rewrite Hp, Hn.
      cbn [bind].
      assert (Hc : contains table (name_of (JObj d)) = Ok (Some c)).
      { unfold table_hit in Hhit.
        destruct (name_of (JObj d)); try discriminate. exact (f_equal Ok Hhit). }
      rewrite Hc. cbn [bind]. rewrite setitem_at_ist by assumption.
      cbn [bind].
      assert (Hdate : exists v, getitem c "date" = Ok v).
      { unfold table_hit in Hhit. destruct (name_of (JObj d)); try discriminate.
        exact (table_has_dates_lookup _ _ _ Htab Hhit). }
      destruct Hdate as [v ->]. cbn [bind]. eauto.
    + rewrite loop_body_keeps by assumption. eauto.
  - cbn [field] in *.
    unfold loop_body. cbn [get].
    unfold ist_date_in_2026, date_of, ist_of in H2026. cbn [field] in H2026.
    destruct (lookup "timing" d) as [[ | | | | | | t] | ]; try discriminate;
      cbn [bind get absent_or is_obj andb field lookup] in *.
    + destruct (lookup "IST" t) as [[ | | | | | | i] | ]; try discriminate;
        cbn [bind get absent_or is_obj andb field lookup] in *.
      * destruct (lookup "date" i) as [[ | | | | s | | ] | ]; try discriminate;
          cbn [bind startswith String.prefix] in *.
        -- rewrite H2026, Hn. cbn [bind]. eauto.
        -- rewrite Hn. cbn [bind]. eauto.
      * cbn [bind startswith String.prefix]. rewrite Hn. cbn [bind]. eauto.
    + cbn [bind startswith String.prefix]. rewrite Hn. cbn [bind]. eauto.
Qed.

Lemma filter_loop_returns (table : dict) (items : list json) :
  table_has_dates table = true ->
  forallb well_shaped_event items = true ->
  forall st, exists st', filter_loop table items st = Ok st'.
Proof.
  intros Htab. induction items as [ | e rest IH]; cbn [forallb filter_loop]; intros H st.
  - eauto.
  - apply andb_prop in H. destruct H as [He Hrest].
    destruct (loop_body_returns table st e Htab He) as [st1 ->]. cbn [bind].
    now apply IH.
Qed.

(** On a document of the expected shape the corrector returns. *)
Lemma corrector_returns (table : dict) (data : json) :
  table_has_dates table = true -> well_shaped data = true ->
  exists out log, corrector table data = Ok (out, log).
Proof.
  intros Htab H. unfold well_shaped in H.
  repeat (apply andb_prop in H; destruct H as [H ?]).
  destruct data as [ | | | | | | d]; try discriminate. cbn [field] in *.
  destruct (lookup "timezones" d) as [[ | | | | | | tzs] | ] eqn:Htz; try discriminate.
  cbn [field] in *.
  destruct (lookup "IST" tzs) as [[ | | | | | | ist] | ] eqn:Hist; try discriminate.
  destruct (lookup "ekadashis" d) as [[ | | | | | items | ] | ] eqn:Hev; try discriminate.
  unfold corrector. cbn [setitem bind setitem_at getitem].
  rewrite lookup_store_other, Htz by discriminate. cbn [bind getitem].
  rewrite Hist. cbn [bind setitem getitem].
  rewrite !lookup_store_other, Hev by discriminate.
  cbn [bind iterate].
  destruct (filter_loop_returns table items Htab ltac:(assumption) ([], []))
    as [[filtered lg] E].
  rewrite E. cbn [bind].
  apply filter_loop_inv in E. destruct E as ([= -> ->] & Hobj & _).
  rewrite (renumber_objects _ (kept_objects table _ Hobj)). cbn [bind]. eauto.
Qed.

(** ** The corrector: the properties *)

(** C2, as the code has it. The year filter reads the date the event was
    loaded with, and the correction is applied to the events that pass
    it: an event kept under a name of the table comes out with the
    table's record as its IST sub-record, every event of the output
    whose name is in the table carries the table's record, and the
    output has one event per input event passing the filter, the kept
    event at each position, corrected and renumbered. *)
Theorem correction_applied_to_kept_events (table : dict) (data out : json)
    (log : list log_line) :
  corrector table data = Ok (out, log) ->
  exists items entries,
    events data = Ok items
    /\ getitem out "ekadashis" = Ok (JArr entries)
    /\ List.length entries = List.length (filter ist_date_in_2026 items)
    /\ (forall i e c,
          nth_error (filter ist_date_in_2026 items) i = Some e ->
          table_hit table e = Some c ->
          exists e', nth_error entries i = Some e'
                     /\ name_of e' = name_of e /\ ist_of e' = Some c)
    /\ (forall e' c, In e' entries -> table_hit table e' = Some c ->
          ist_of e' = Some c)
    /\ (forall i e, nth_error (filter ist_date_in_2026 items) i = Some e ->
          nth_error entries i =
          Some (set_id (Z.of_nat i + 1) (apply_correction table e))).
Proof.
  intros H. apply corrector_inv in H.
  destruct H as (d & tzs & ist & items & -> & _ & _ & Hev & Hobj & _ & ->).
  exists items, (renumbered 1 (kept table items)).
  split; [ assumption | ]. split; [ apply getitem_store | ].
  assert (Hnth : forall i e,
             nth_error (filter ist_date_in_2026 items) i = Some e ->
             ist_date_in_2026 e = true
             /\ nth_error (renumbered 1 (kept table items)) i =
                Some (set_id (1 + Z.of_nat i) (apply_correction table e))).
  { intros i e Hi. split.
    - apply nth_error_In in Hi. now apply filter_In in Hi.
    - apply renumbered_nth. unfold kept. now rewrite nth_error_map, Hi. }
  split; [ | split; [ | split ] ].
  - unfold kept. now rewrite renumbered_length, length_map.
  - intros i e c Hi Hc. destruct (Hnth i e Hi) as [H2026 Hn].
    eexists. split; [ exact Hn | ]. split.
    + now apply kept_event_name.
    + now apply (kept_event_frame table _ e H2026).
  - intros e' c Hin Hc.
    apply In_nth_error in Hin. destruct Hin as [i Hi].
    assert (Hlt : (i < List.length (filter ist_date_in_2026 items))%nat).
    { assert (Hs : nth_error (renumbered 1 (kept table items)) i <> None)
        by congruence.
      apply nth_error_Some in Hs.
      unfold kept in Hs. now rewrite renumbered_length, length_map in Hs. }
    destruct (nth_error (filter ist_date_in_2026 items) i) as [e | ] eqn:He;
      [ | apply nth_error_None in He; lia ].
    destruct (Hnth i e He) as [H2026 Hn].
    rewrite Hn in Hi. injection Hi as <-.
    apply (kept_event_frame table _ e H2026).
    unfold table_hit in *. now rewrite kept_event_name in Hc.
  - intros i e Hi. destruct (Hnth i e Hi) as [_ Hn]. rewrite Hn.
    do 2 f_equal. lia.
Qed.

Lemma correction_applied_to_kept_events_witness :
  exists out log,
    script sample_document = Ok (out, log)
    /\ exists items entries,
         events sample_document = Ok items
         /\ getitem out "ekadashis" = Ok (JArr entries)
         /\ List.length entries = 2%nat.
Proof.
  eexists. eexists. split; [ vm_compute; reflexivity | ].
  destruct (correction_applied_to_kept_events ist_corrections sample_document _ _ eq_refl)
    as (items & entries & Hev & Hout & Hlen & _).
  exists items, entries. split; [ exact Hev | split; [ exact Hout | ] ].
  rewrite Hlen. injection Hev as <-. reflexivity.
Defined.

(** C2 as stated fails: with the correction ahead of the filter, the 2025
    event named Mohini Ekadashi would take the table's 2026 record and
    stay; the script tests the date it was loaded with and removes it. *)
Lemma correction_before_filter_counterexample :
  events (document_of [mohini_2025]) = Ok [mohini_2025]
  /\ table_hit ist_corrections mohini_2025 <> None
  /\ correct_then_filter ist_corrections [mohini_2025]
     = [apply_correction ist_corrections mohini_2025]
  /\ (exists out log,
        script (document_of [mohini_2025]) = Ok (out, log)
        /\ getitem out "ekadashis" = Ok (JArr [])
        /\ In (Removed (JStr "Mohini Ekadashi") (JStr "2025-05-08")) log).
Proof.
  split; [ reflexivity | ]. split; [ discriminate | ]. split; [ reflexivity | ].
  eexists. eexists. split; [ vm_compute; reflexivity | ].
  split; [ reflexivity | ]. left. reflexivity.
Qed.

(** C3. The document the corrector returns lists the input events whose
    IST date starts with 2026, and only these, in their input order
    (each with its correction applied), and numbers them 1, 2, .., M; and
    the corrector does return on a document of the expected shape. *)
Theorem corrector_keeps_2026_renumbered (table : dict) (data : json) :
  (forall out log, corrector table data = Ok (out, log) ->
     exists items entries,
       events data = Ok items
       /\ getitem out "ekadashis" = Ok (JArr entries)
       /\ List.length entries = List.length (filter ist_date_in_2026 items)
       /\ (forall i e, nth_error (filter ist_date_in_2026 items) i = Some e ->
             nth_error entries i =
             Some (set_id (Z.of_nat i + 1) (apply_correction table e)))
       /\ ids entries = one_to (List.length entries))
  /\ (table_has_dates table = true -> well_shaped data = true ->
      exists out log, corrector table data = Ok (out, log)).
Proof.
  split; [ | apply corrector_returns ].
  intros out log H. apply corrector_inv in H.
  destruct H as (d & tzs & ist & items & -> & _ & _ & Hev & Hobj & _ & ->).
  exists items, (renumbered 1 (kept table items)).
  split; [ assumption | ]. split; [ apply getitem_store | ].
  split; [ | split ].
  - unfold kept. now rewrite renumbered_length, length_map.
  - intros i e Hi. unfold kept.
    rewrite (renumbered_nth _ 1 i (apply_correction table e)).
    + do 2 f_equal. lia.
    + now rewrite nth_error_map, Hi.
  - rewrite renumbered_ids by now apply kept_objects.
    rewrite renumbered_length. unfold one_to.
    rewrite <- (seq_shift _ 0), map_map. apply map_ext. intros n.
    do 2 f_equal. lia.
Qed.

(** C7. The document the script returns goes through the corrector with
    an empty correction table unchanged: the metadata rewrite, the filter
    and the renumbering give it back as it is. (The proof uses of the
    script's table only that its records are dated in 2026.) *)
Theorem corrector_idempotent_on_output (data out : json) (log : list log_line) :
  script data = Ok (out, log) ->
  exists log', corrector [] out = Ok (out, log').
Proof.
  unfold script.
  assert (Htab : table_in_2026 ist_corrections = true) by reflexivity.
  revert Htab. generalize ist_corrections as table. intros table Htab H.
  apply corrector_inv in H.
  destruct H as (d & tzs & ist & items & -> & Htz & Hist & Hev & Hobj & Hacc & ->).
  set (R := renumbered 1 (kept table items)).
  set (M := with_metadata d tzs ist).
  assert (HR : Forall (fun e => ist_date_in_2026 e = true
                                /\ name_en e = Ok (name_of e)
                                /\ hashable (name_of e) = true) R).
  { subst R. unfold kept. apply renumbered_kept_stays; [ assumption | ].
    rewrite Forall_forall in *. intros e He. apply filter_In in He.
    destruct He as [He H2026]. destruct (Hacc e He) as [Hh Hn]. auto. }
  assert (HRobj : Forall (fun e => is_obj e = true) R).
  { subst R. apply renumbered_objects. now apply kept_objects. }
  assert (Hdr : lookup "date_range" (store "ekadashis" (JArr R) M) = Some date_range_2026).
  { subst M. unfold with_metadata.
    rewrite !lookup_store_other by discriminate. apply lookup_store_same. }
  assert (Htzs : lookup "timezones" (store "ekadashis" (JArr R) M)
                 = Some (JObj (store "IST" (JObj (store "cities" (JArr [JStr "India"]) ist)) tzs))).
  { subst M. unfold with_metadata.
    rewrite lookup_store_other by discriminate. apply lookup_store_same. }
  unfold corrector. cbn [setitem bind].
  rewrite (store_present _ _ _ Hdr).
  cbn [setitem_at getitem]. rewrite Htzs. cbn [bind getitem].
  rewrite lookup_store_same. cbn [bind setitem].
  rewrite !store_store.
  rewrite (store_present _ _ _ Htzs).
  rewrite getitem_store. cbn [bind iterate].
  destruct (filter_loop_keeps_all R HR [] []) as [out' ->].
  cbn [bind app]. rewrite store_store.
  rewrite (renumber_objects R HRobj). cbn [bind].
  subst R. rewrite renumbered_again, store_store. eauto.
Qed.

Lemma corrector_idempotent_on_output_witness :
  exists out log log',
    script sample_document = Ok (out, log)
    /\ corrector [] out = Ok (out, log').
Proof.
  eexists. eexists.
  destruct (corrector_idempotent_on_output sample_document _ _ eq_refl)
    as [log' H].
  exists log'. split; [ reflexivity | exact H ].
Defined.

(** C9. An event the corrector keeps comes out with every field other
    than [timing] and [id] as it was read; inside [timing] every
    time-zone record other than IST is as it was read, under the same
    keys in the same order; the IST record is the table's when the name
    is in the table, and the whole timing block is untouched when it is
    not. *)
Theorem correction_touches_only_ist (table : dict) (data out : json)
    (log : list log_line) :
  corrector table data = Ok (out, log) ->
  exists items entries,
    events data = Ok items
    /\ getitem out "ekadashis" = Ok (JArr entries)
    /\ forall i e, nth_error (filter ist_date_in_2026 items) i = Some e ->
       exists e',
         nth_error entries i = Some e'
         /\ (forall k, k <> "timing" -> k <> "id" -> field k e' = field k e)
         /\ (exists t t', field "timing" e = Some (JObj t)
                          /\ field "timing" e' = Some (JObj t')
                          /\ map fst t' = map fst t
                          /\ forall tz, tz <> "IST" -> lookup tz t' = lookup tz t)
         /\ (forall c, table_hit table e = Some c -> ist_of e' = Some c)
         /\ (table_hit table e = None -> field "timing" e' = field "timing" e).
Proof.
  intros H. apply corrector_inv in H.
  destruct H as (d & tzs & ist & items & -> & _ & _ & Hev & Hobj & _ & ->).
  exists items, (renumbered 1 (kept table items)).
  split; [ assumption | ]. split; [ apply getitem_store | ].
  intros i e Hi.
  assert (H2026 : ist_date_in_2026 e = true).
  { apply nth_error_In in Hi. now apply filter_In in Hi. }
  exists (set_id (1 + Z.of_nat i) (apply_correction table e)).
  split.
  - apply renumbered_nth. unfold kept. now rewrite nth_error_map, Hi.
  - apply (kept_event_frame table (1 + Z.of_nat i) e H2026).
Qed.

Lemma correction_touches_only_ist_witness :
  exists out log,
    script sample_document = Ok (out, log)
    /\ exists items entries,
         events sample_document = Ok items
         /\ getitem out "ekadashis" = Ok (JArr entries).
Proof.
  eexists. eexists. split; [ vm_compute; reflexivity | ].
  destruct (correction_touches_only_ist ist_corrections sample_document _ _ eq_refl)
    as (items & entries & Hev & Hout & _).
  exists items, entries. split; [ exact Hev | exact Hout ].
Defined.

Lemma get_raises (obj : json) (k : string) (dflt : json) (e : exn) :
  get obj k dflt = Raise e -> e = AttributeError.
Proof.
  destruct obj as [ | | | | | | d]; cbn; try congruence.
  destruct (lookup k d); discriminate.
Qed.

Lemma get_not_object (obj : json) (k : string) (dflt : json) :
  is_obj obj = false -> get obj k dflt = Raise AttributeError.
Proof. destruct obj; try reflexivity. discriminate. Qed.

Lemma startswith_not_string (v : json) (p : string) :
  is_str v = false -> startswith v p = Raise AttributeError.
Proof. destruct v; try reflexivity. discriminate. Qed.

Lemma name_en_not_object (d : dict) (n : json) :
  lookup "name" d = Some n -> is_obj n = false ->
  name_en (JObj d) = Raise AttributeError.
Proof.
  intros Hn Ho. unfold name_en. cbn [get]. rewrite Hn. cbn [bind].
  now apply get_not_object.
Qed.

(** C10, as the code has it. An entry that is an object, whose [name] is
    absent or an object, and that has no [timing] key, or no [IST] record
    in its timing block, or no [date] in its IST record, is read with the
    empty date, reported as not of 2026 and left out; the iteration
    returns. The iteration is not total over entries of any shape: an
    entry that is no object, a [timing], [IST] or [name] value that is
    no object, and a [date] that is no string each raise
    [AttributeError]. *)
Theorem loop_body_removes_undated (table : dict) (acc : list json)
    (out : list log_line) :
  (forall d, name_readable d -> undated d ->
     date_of (JObj d) = JStr ""
     /\ ist_date_in_2026 (JObj d) = false
     /\ loop_body table (acc, out) (JObj d)
        = Ok (acc, (out ++ [Removed (name_of (JObj d)) (JStr "")])%list))
  /\ (forall e, is_obj e = false ->
        loop_body table (acc, out) e = Raise AttributeError)
  /\ (forall d t, lookup "timing" d = Some t -> is_obj t = false ->
        loop_body table (acc, out) (JObj d) = Raise AttributeError)
  /\ (forall d t i, lookup "timing" d = Some (JObj t) ->
        lookup "IST" t = Some i -> is_obj i = false ->
        loop_body table (acc, out) (JObj d) = Raise AttributeError)
  /\ (forall d t i v, lookup "timing" d = Some (JObj t) ->
        lookup "IST" t = Some (JObj i) ->
        lookup "date" i = Some v -> is_str v = false ->
        loop_body table (acc, out) (JObj d) = Raise AttributeError)
  /\ (forall d n, lookup "name" d = Some n -> is_obj n = false ->
        loop_body table (acc, out) (JObj d) = Raise AttributeError).
Proof.
  split; [ | split; [ | split; [ | split; [ | split ] ] ] ].
  - intros d Hn Hu.
    assert (Hd : date_of (JObj d) = JStr ""
                 /\ exists timing ist_timing,
                      get (JObj d) "timing" (JObj []) = Ok timing
                      /\ get timing "IST" (JObj []) = Ok ist_timing
                      /\ get ist_timing "date" (JStr "") = Ok (JStr "")).
    { unfold date_of, ist_of. cbn [field get].
      destruct Hu as [Ht | (t & Ht & [Hi | (i & Hi & Hdt)])]; rewrite Ht.
      - split; [ reflexivity | ]. exists (JObj []), (JObj []). auto.
      - cbn [field get]. rewrite Hi. split; [ reflexivity | ].
        exists (JObj t), (JObj []). cbn [get]. rewrite Hi. auto.
      - cbn [field get]. rewrite Hi. cbn [field]. rewrite Hdt.
        split; [ reflexivity | ].
        exists (JObj t), (JObj i). cbn [get]. rewrite Hi, Hdt. auto. }
    destruct Hd as (Hdate & timing & ist_timing & H1 & H2 & H3).
    split; [ assumption | ].
    split; [ unfold ist_date_in_2026; now rewrite Hdate | ].
    unfold loop_body. rewrite H1. cbn [bind]. rewrite H2. cbn [bind].
    rewrite H3. cbn [bind startswith String.prefix].
    rewrite (name_en_readable d Hn). reflexivity.
  - intros e He. unfold loop_body. now rewrite get_not_object.
  - intros d t Ht Ho. unfold loop_body. cbn [get]. rewrite Ht. cbn [bind].
    now rewrite get_not_object.
  - intros d t i Ht Hi Ho. unfold loop_body. cbn [get]. rewrite Ht.
    cbn [bind get]. rewrite Hi. cbn [bind]. now rewrite get_not_object.
  - intros d t i v Ht Hi Hv Hs. unfold loop_body. cbn [get]. rewrite Ht.
    cbn [bind get]. rewrite Hi. cbn [bind get]. rewrite Hv. cbn [bind].
    now rewrite startswith_not_string.
  - intros d n Hn Ho. unfold loop_body.
    destruct (get (JObj d) "timing" (JObj [])) as [timing | e1] eqn:E1;
      cbn [bind]; [ | now rewrite (get_raises _ _ _ _ E1) ].
    destruct (get timing "IST" (JObj [])) as [ist_timing | e2] eqn:E2;
      cbn [bind]; [ | now rewrite (get_raises _ _ _ _ E2) ].
    destruct (get ist_timing "date" (JStr "")) as [date_str | e3] eqn:E3;
      cbn [bind]; [ | now rewrite (get_raises _ _ _ _ E3) ].
    destruct (startswith date_str "2026") as [b | e4] eqn:E4; cbn [bind].
    + rewrite (name_en_not_object d n Hn Ho). now destruct b.
    + destruct date_str; cbn [startswith] in E4; try discriminate;
        now injection E4 as <-.
Qed.

Lemma loop_body_removes_undated_witness :
  loop_body ist_corrections ([], [])
    (JObj [("id", JInt 4); ("name", JObj [("en", JStr "Amalaki Ekadashi")]);
           ("timing", JObj [("EST", JObj [("date", JStr "2026-02-27")])])])
  = Ok ([], [Removed (JStr "Amalaki Ekadashi") (JStr "")]).
Proof.
  refine (proj2 (proj2 (proj1 (loop_body_removes_undated ist_corrections [] [])
                          _ _ _))).
  - right. eexists. reflexivity.
  - right. eexists. split; [ reflexivity | left; reflexivity ].
Defined.

(** C10 as stated fails: the loop is not total over entries of any shape.
    An entry without a [timing] key whose [name] is a string makes the
    report of its removal raise; so does an entry that is no object, and a
    date that is no string. *)
Lemma loop_body_not_total_counterexample :
  lookup "timing" [("id", JInt 4); ("name", JStr "Amalaki Ekadashi")] = None
  /\ loop_body ist_corrections ([], [])
       (JObj [("id", JInt 4); ("name", JStr "Amalaki Ekadashi")])
     = Raise AttributeError
  /\ loop_body ist_corrections ([], []) (JStr "Amalaki Ekadashi")
     = Raise AttributeError
  /\ loop_body ist_corrections ([], [])
       (JObj [("timing", JObj [("IST", JObj [("date", JInt 2026)])])])
     = Raise AttributeError
  /\ script (document_of [JObj [("id", JInt 4); ("name", JStr "Amalaki Ekadashi")]])
     = Raise AttributeError.
Proof. repeat split. Qed.

(** * Further properties *)

Import More.

(** ** The DST rule beyond its interval *)

(** X1. Outside the year 2026 the offset is the standard one, whatever
    the other fields are: the summer of any other year is not seen. *)
Theorem get_pst_offset_other_year (dt : datetime) :
  year dt <> 2026 -> get_pst_offset dt = "-08:00".
Proof.
  intros Hy. unfold get_pst_offset, le, lt, cmp, DST_START_2026, DST_END_2026,
    fields. cbn [year month day hour minute second microsecond cmp_tuple].
  destruct (Z.compare_spec 2026 (year dt)) as [E | L | G].
  - congruence.
  - rewrite (proj2 (Z.compare_gt_iff (year dt) 2026)) by lia. reflexivity.
  - reflexivity.
Qed.

Lemma get_pst_offset_other_year_witness :
  get_pst_offset (mkdt 2027 7 4 12 0 0 0) = "-08:00".
Proof. apply get_pst_offset_other_year. cbn. discriminate. Defined.

(** X2. The rule switches on the hour: with minute, second and
    microsecond not negative, the offset is the one of the start of the
    hour. *)
Theorem get_pst_offset_by_hour (dt : datetime) :
  0 <= minute dt -> 0 <= second dt -> 0 <= microsecond dt ->
  get_pst_offset dt =
  get_pst_offset (mkdt (year dt) (month dt) (day dt) (hour dt) 0 0 0).
Proof.
  destruct dt as [y m d h mi s us]. cbn [year month day hour minute second microsecond].
  intros Hmi Hs Hus.
  unfold get_pst_offset, le, lt, cmp, DST_START_2026, DST_END_2026, fields.
  cbn [year month day hour minute second microsecond cmp_tuple].
  assert (Hlo : forall a b c, 0 <= a -> 0 <= b -> 0 <= c ->
            match (match 0 ?= a with
                   | Eq => match 0 ?= b with
                           | Eq => match 0 ?= c with Eq => Eq | x => x end
                           | x => x end
                   | x => x end) with Gt => false | _ => true end = true).
  { intros a b c Ha Hb Hc.
    destruct (Z.compare_spec 0 a); try lia; try reflexivity.
    destruct (Z.compare_spec 0 b); try lia; try reflexivity.
    destruct (Z.compare_spec 0 c); try lia; reflexivity. }
  assert (Hhi : forall a b c, 0 <= a -> 0 <= b -> 0 <= c ->
            match (match a ?= 0 with
                   | Eq => match b ?= 0 with
                           | Eq => match c ?= 0 with Eq => Eq | x => x end
                           | x => x end
                   | x => x end) with Lt => true | _ => false end = false).
  { intros a b c Ha Hb Hc.
    destruct (Z.compare_spec a 0); try lia; try reflexivity.
    destruct (Z.compare_spec b 0); try lia; try reflexivity.
    destruct (Z.compare_spec c 0); try lia; reflexivity. }
  destruct (2026 ?= y); try reflexivity;
    destruct (y ?= 2026); try reflexivity;
    destruct (3 ?= m); destruct (m ?= 11); try reflexivity;
    destruct (8 ?= d); destruct (d ?= 1); try reflexivity;
    destruct (2 ?= h); destruct (h ?= 2); try reflexivity;
    rewrite ?Hlo, ?Hhi by assumption; cbn; rewrite ?Hlo, ?Hhi by assumption;
    reflexivity.
Qed.

Lemma get_pst_offset_by_hour_witness :
  get_pst_offset (mkdt 2026 11 1 1 59 59 999999)
  = get_pst_offset (mkdt 2026 11 1 1 0 0 0).
Proof. apply (get_pst_offset_by_hour (mkdt 2026 11 1 1 59 59 999999)); cbn; lia. Defined.

(** ** What a match of the format pattern holds *)

Lemma star_sound {A : Type} (f : ascii -> bool) (k : string -> option A)
    (s : string) (x : A) :
  star f k s = Some x ->
  exists q rest, s = q ++ rest /\ all_chars f q = true /\ k rest = Some x.
Proof.
  induction s as [ | c s IH]; cbn [star].
  - intros H. exists "", "". auto.
  - destruct (f c) eqn:Hc.
    + destruct (star f k s) as [y | ] eqn:Hs.
      * intros [= <-]. destruct (IH eq_refl) as (q & rest & -> & Hq & Hk).
        exists (String c q), rest. cbn. rewrite Hc, Hq. auto.
      * intros H. exists "", (String c s). auto.
    + intros H. exists "", (String c s). auto.
Qed.

(** A match splits the text into what the pattern took, which the
    pattern does match, and the rest, which the continuation accepted. *)
Lemma run_sound (r : regex) :
  forall (A : Type) (s : string) (k : string -> option A) (x : A),
    run r s k = Some x ->
    exists p rest, s = p ++ rest /\ lang r p /\ k rest = Some x.
Proof.
  induction r as [c | f | a IHa b IHb | a IHa b IHb | f]; intros A s k x; cbn [run lang].
  - destruct s as [ | c' s]; [ discriminate | ].
    destruct (Ascii.eqb (lower c') (lower c)) eqn:E; [ | discriminate ].
    intros H. exists (String c' ""), s.
    split; [ reflexivity | split; [ exists c'; auto | exact H ] ].
  - destruct s as [ | c' s]; [ discriminate | ].
    destruct (f c') eqn:E; [ | discriminate ].
    intros H. exists (String c' ""), s.
    split; [ reflexivity | split; [ exists c'; auto | exact H ] ].
  - intros H. apply IHa in H. destruct H as (p1 & r1 & -> & H1 & H).
    apply IHb in H. destruct H as (p2 & r2 & -> & H2 & H).
    exists (p1 ++ p2), r2. rewrite append_assoc.
    split; [ reflexivity | split; [ exists p1, p2; auto | exact H ] ].
  - destruct (run a s k) as [y | ] eqn:E.
    + intros [= <-]. apply IHa in E. destruct E as (p & rest & -> & Hp & Hk).
      exists p, rest. auto.
    + intros H. apply IHb in H. destruct H as (p & rest & -> & Hp & Hk).
      exists p, rest. auto.
  - destruct s as [ | c' s]; [ discriminate | ].
    destruct (f c') eqn:E; [ | discriminate ].
    intros H. apply star_sound in H. destruct H as (q & rest & -> & Hq & Hk).
    exists (String c' q), rest.
    split; [ reflexivity | split; [ exists c', q; auto | exact Hk ] ].
Qed.

Lemma group_sound {A : Type} (r : regex) (s : string)
    (k : string -> string -> option A) (x : A) :
  group r s k = Some x ->
  exists p rest, s = p ++ rest /\ lang r p /\ k p rest = Some x.
Proof.
  unfold group. intros H. apply run_sound in H.
  destruct H as (p & rest & -> & Hp & Hk).
  rewrite length_append, Nat.add_sub, substring_prefix in Hk. eauto.
Qed.

(** The groups of a match of the format pattern are texts of their
    directives. *)
Lemma format_regex_match_groups (s : string) (f : found) (rest : string) :
  format_regex_match s = Some (f, rest) ->
  lang re_Y (g_Y f) /\ lang re_m (g_m f) /\ lang re_d (g_d f)
  /\ lang re_I (g_I f) /\ lang re_M (g_M f) /\ lang re_p (g_p f).
Proof.
  unfold format_regex_match. intros H.
  apply group_sound in H. destruct H as (Y & s1 & _ & HY & H).
  apply run_sound in H. destruct H as (_ & s2 & _ & _ & H).
  apply group_sound in H. destruct H as (m & s3 & _ & Hm & H).
  apply run_sound in H. destruct H as (_ & s4 & _ & _ & H).
  apply group_sound in H. destruct H as (d & s5 & _ & Hd & H).
  apply run_sound in H. destruct H as (_ & s6 & _ & _ & H).
  apply group_sound in H. destruct H as (I & s7 & _ & HI & H).
  apply run_sound in H. destruct H as (_ & s8 & _ & _ & H).
  apply group_sound in H. destruct H as (M & s9 & _ & HM & H).
  apply run_sound in H. destruct H as (_ & s10 & _ & _ & H).
  apply group_sound in H. destruct H as (p & rest' & _ & Hp & H).
  injection H as <- <-. cbn. auto 10.
Qed.

Lemma is_digit_inv (c : ascii) :
  is_digit c = true -> exists n, 0 <= n <= 9 /\ c = digit_char n.
Proof.
  unfold is_digit, code. intros H. apply andb_prop in H. destruct H as [H1 H2].
  apply N.leb_le in H1, H2.
  exists (Z.of_N (N_of_ascii c) - 48). split; [ lia | ].
  unfold digit_char.
  replace (48 + (Z.of_N (N_of_ascii c) - 48) mod 10) with (Z.of_N (N_of_ascii c))
    by (rewrite Z.mod_small; lia).
  now rewrite N2Z.id, ascii_N_embedding.
Qed.

Lemma in_range_digit (lo hi c : ascii) :
  in_range lo hi c = true -> is_digit lo = true -> is_digit hi = true ->
  exists n, digit_val lo <= n <= digit_val hi /\ c = digit_char n.
Proof.
  unfold in_range, is_digit, digit_val. intros H Hlo Hhi.
  apply andb_prop in H, Hlo, Hhi.
  destruct H as [H1 H2], Hlo as [L1 L2], Hhi as [U1 U2].
  apply N.leb_le in H1, H2, L1, L2, U1, U2.
  destruct (is_digit_inv c) as (n & Hn & ->).
  { unfold is_digit. apply andb_true_intro. split; apply N.leb_le; lia. }
  exists n. split; [ | reflexivity ].
  assert (E : Z.of_N (code (digit_char n)) = 48 + n).
  { unfold digit_char, code. rewrite N_ascii_embedding.
    - rewrite Z2N.id by (rewrite Z.mod_small; lia). rewrite Z.mod_small; lia.
    - rewrite Z.mod_small by lia. lia. }
  lia.
Qed.

(** Lower-casing moves no character onto a digit or a space. *)
Lemma lower_below_letters (c : ascii) :
  (code (lower c) <=? 64)%N = true -> lower c = c.
Proof.
  destruct c as [[] [] [] [] [] [] [] []]; vm_compute; intros H;
    solve [ reflexivity | discriminate ].
Qed.

Lemma chr_inv (c c' : ascii) :
  (code c <=? 64)%N = true ->
  Ascii.eqb (lower c') (lower c) = true -> c' = c.
Proof.
  intros Hc H. apply Ascii.eqb_eq in H.
  assert (Hl : lower c = c).
  { unfold lower. destruct ((65 <=? code c)%N) eqn:E; [ | reflexivity ].
    apply N.leb_le in E, Hc. lia. }
  rewrite Hl in H. rewrite <- H. symmetry. apply lower_below_letters.
  now rewrite H.
Qed.

(** From a class test on a character to the digit it is. *)
Ltac digit_of H :=
  let n := fresh "n" in
  let Hn := fresh "Hn" in
  match type of H with
  | in_range ?lo ?hi ?c = true =>
      destruct (in_range_digit lo hi c H eq_refl eq_refl) as (n & Hn & ->);
      let vlo := eval vm_compute in (digit_val lo) in
      let vhi := eval vm_compute in (digit_val hi) in
      change (digit_val lo) with vlo in Hn;
      change (digit_val hi) with vhi in Hn
  | is_digit ?c = true =>
      destruct (is_digit_inv c H) as (n & Hn & ->)
  end.

Ltac chr_of H :=
  match type of H with
  | Ascii.eqb (lower ?c') (lower ?c) = true =>
      apply (chr_inv c c' eq_refl) in H; subst c'
  end.

Lemma int_digit_chars (cs : list Z) :
  Forall (fun a => 0 <= a <= 9) cs ->
  forall acc,
    int_digits acc (string_of_list_ascii (map digit_char cs))
    = Ok (fold_left (fun v a => v * 10 + a) cs acc).
Proof.
  induction 1 as [ | a cs Ha _ IH]; intros acc; cbn; [ reflexivity | ].
  destruct (digit_char_spec a) as [-> ->]. rewrite IH.
  now rewrite Z.mod_small by lia.
Qed.

Lemma lang_Y (p : string) :
  lang re_Y p -> exists y, 0 <= y <= 9999 /\ int p = Ok y.
Proof.
  unfold re_Y, digit. cbn [lang].
  intros (p1 & q1 & -> & (c1 & -> & H1) & p2 & q2 & -> & (c2 & -> & H2)
          & p3 & q3 & -> & (c3 & -> & H3) & c4 & -> & H4).
  digit_of H1. digit_of H2. digit_of H3. digit_of H4.
  cbn [append]. unfold int. cbn [lstrip]. rewrite digit_char_not_space.
  assert (HF : Forall (fun a => 0 <= a <= 9) [n; n0; n1; n2])
    by (repeat (apply Forall_cons; [ assumption | ]); apply Forall_nil).
  pose proof (int_digit_chars _ HF 0) as E.
  cbn [map string_of_list_ascii fold_left] in E. rewrite E.
  eexists. split; [ | reflexivity ]. lia.
Qed.

Ltac read_int :=
  match goal with
  | |- context [int ?s] =>
      let v := eval vm_compute in (int s) in
      match v with
      | Ok ?m => exists m; split; [ lia | vm_compute; reflexivity ]
      end
  end.

Ltac small_int n lo := by_cases_from n lo ltac:(idtac; read_int).

Lemma lang_m (p : string) :
  lang re_m p -> exists m, 1 <= m <= 12 /\ int p = Ok m.
Proof.
  unfold re_m, rng. cbn [lang].
  intros [(p1 & q1 & -> & (c1 & -> & H1) & c2 & -> & H2)
         | [(p1 & q1 & -> & (c1 & -> & H1) & c2 & -> & H2)
           | (c1 & -> & H1)]].
  - chr_of H1. digit_of H2. small_int n 0.
  - chr_of H1. digit_of H2. small_int n 1.
  - digit_of H1. small_int n 1.
Qed.

Lemma lang_d (p : string) :
  lang re_d p -> exists d, 1 <= d <= 31 /\ int p = Ok d.
Proof.
  unfold re_d, rng, digit. cbn [lang].
  intros [(p1 & q1 & -> & (c1 & -> & H1) & c2 & -> & H2)
         | [(p1 & q1 & -> & (c1 & -> & H1) & c2 & -> & H2)
           | [(p1 & q1 & -> & (c1 & -> & H1) & c2 & -> & H2)
             | [(c1 & -> & H1)
               | (p1 & q1 & -> & (c1 & -> & H1) & c2 & -> & H2)]]]].
  - chr_of H1. digit_of H2. small_int n 0.
  - digit_of H1. digit_of H2.
    by_cases_from n 1 ltac:(small_int n0 0).
  - chr_of H1. digit_of H2. small_int n 1.
  - digit_of H1. small_int n 1.
  - chr_of H1. digit_of H2. small_int n 1.
Qed.

Lemma lang_M (p : string) :
  lang re_M p -> exists mi, 0 <= mi <= 59 /\ int p = Ok mi.
Proof.
  unfold re_M, rng, digit. cbn [lang].
  intros [(p1 & q1 & -> & (c1 & -> & H1) & c2 & -> & H2) | (c1 & -> & H1)].
  - digit_of H1. digit_of H2.
    by_cases_from n 0 ltac:(small_int n0 0).
  - digit_of H1. small_int n 0.
Qed.

Lemma lang_p (p : string) :
  lang re_p p -> lower_str p = "am" \/ lower_str p = "pm".
Proof.
  unfold re_p. cbn [lang].
  intros [(p1 & q1 & -> & (c1 & -> & H1) & c2 & -> & H2)
         | (p1 & q1 & -> & (c1 & -> & H1) & c2 & -> & H2)];
    apply Ascii.eqb_eq in H1, H2; cbn [append lower_str]; rewrite H1, H2;
    [ left | right ]; reflexivity.
Qed.

(** What [strptime] returns is a datetime its constructor accepts, on the
    minute. *)
Lemma strptime_sound (s : string) (dt : datetime) :
  strptime s = Ok dt ->
  valid dt = true /\ second dt = 0 /\ microsecond dt = 0.
Proof.
  unfold strptime.
  destruct (format_regex_match s) as [[f rest] | ] eqn:E; [ | discriminate ].
  destruct (negb (rest =? "")%string); [ discriminate | ].
  destruct (format_regex_match_groups _ _ _ E) as (HY & Hm & Hd & HI & HM & Hp).
  destruct (lang_Y _ HY) as (y & Hy & ->).
  destruct (lang_m _ Hm) as (m & Hmr & ->).
  destruct (lang_d _ Hd) as (d & Hdr & ->).
  destruct (lang_m _ HI) as (h & Hh & ->).
  destruct (lang_M _ HM) as (mi & Hmi & ->).
  cbn [bind].
  destruct (check_date_fields y m d) eqn:Hc; [ | discriminate ].
  intros [= <-]. unfold valid.
  cbn [year month day hour minute second microsecond]. rewrite Hc.
  split; [ | auto ]. cbn [andb]. apply check_time_fields_spec.
  destruct (lang_p _ Hp) as [-> | ->]; cbn [String.eqb Ascii.eqb Bool.eqb];
    destruct (Z.eqb_spec h 12); lia.
Qed.

Lemma rendered_iso_form (dt : datetime) :
  1000 <= year dt ->
  rendered dt = date_string (year dt) (month dt) (day dt) ++ "T"
                  ++ pad2 (hour dt) ++ ":" ++ pad2 (minute dt) ++ ":00"
                  ++ get_pst_offset dt
  /\ iso_form (rendered dt) = true.
Proof.
  intros Hy.
  assert (E : rendered dt = date_string (year dt) (month dt) (day dt) ++ "T"
                ++ pad2 (hour dt) ++ ":" ++ pad2 (minute dt) ++ ":00"
                ++ get_pst_offset dt).
  { unfold rendered. rewrite (year_Y_four_digits _ Hy). unfold date_string.
    rewrite !append_assoc. reflexivity. }
  split; [ exact E | ]. rewrite E.
  apply iso_form_rendered, get_pst_offset_cases.
Qed.

(** What the converter returns as a timestamp is the rendering of the
    datetime parsed, which is valid and on the minute. *)
Lemma convert_time_to_iso_rendered (date_str time_str : option string) (s : string) :
  convert_time_to_iso date_str time_str = Ok (Some s) ->
  truthy date_str = true /\ truthy time_str = true
  /\ exists dt,
       strptime (fstr date_str ++ " " ++ fstr time_str) = Ok dt
       /\ valid dt = true /\ second dt = 0 /\ microsecond dt = 0
       /\ s = rendered dt.
Proof.
  rewrite convert_time_to_iso_cases.
  destruct (truthy date_str); cbn [negb orb]; [ | discriminate ].
  destruct (truthy time_str); cbn [negb orb]; [ | discriminate ].
  destruct (strptime _) as [dt | ] eqn:E; [ | discriminate ].
  remember (strftime dt ("%Y-%m-%dT%H:%M:%S" ++ get_pst_offset dt)) as out
    eqn:Eo.
  intros [= <-]. split; [ reflexivity | split; [ reflexivity | ] ].
  exists dt. destruct (strptime_sound _ _ E) as (Hv & Hs & Hus).
  split; [ reflexivity | ]. repeat (split; [ assumption | ]).
  rewrite Eo, strftime_iso, Hs. reflexivity.
Qed.

(** X3. Every timestamp [convert_time_to_iso] returns is the rendering of
    a calendar instant that exists: both arguments were non-empty, their
    text parsed to a valid datetime on the minute, and the timestamp is
    its year as [%Y] writes it, its month and day on two digits, [T], its
    time on the 24-hour clock with seconds 00, and the offset
    [get_pst_offset] gives for it. From the year 1000 on this is the
    zero-padded date followed by the time and the offset, of the ISO
    shape; below the year 1000 it is not of that shape. *)
Theorem convert_time_to_iso_sound (date_str time_str : option string) (s : string) :
  convert_time_to_iso date_str time_str = Ok (Some s) ->
  truthy date_str = true /\ truthy time_str = true
  /\ exists dt,
       strptime (fstr date_str ++ " " ++ fstr time_str) = Ok dt
       /\ valid dt = true /\ second dt = 0 /\ microsecond dt = 0
       /\ s = rendered dt
       /\ (1000 <= year dt ->
           s = date_string (year dt) (month dt) (day dt) ++ "T"
                 ++ pad2 (hour dt) ++ ":" ++ pad2 (minute dt) ++ ":00"
                 ++ get_pst_offset dt
           /\ iso_form s = true)
       /\ (year dt < 1000 -> iso_form s = false).
Proof.
  intros H. apply convert_time_to_iso_rendered in H.
  destruct H as (Hd & Ht & dt & Hp & Hv & Hs & Hus & ->).
  split; [ assumption | split; [ assumption | ] ].
  exists dt. repeat (split; [ assumption || reflexivity | ]). split.
  - apply rendered_iso_form.
  - intros Hy. unfold rendered.
    apply iso_form_short_year; [ exact Hy | apply get_pst_offset_cases ].
Qed.

Lemma convert_time_to_iso_sound_witness :
  exists dt,
    strptime ("2026-11-01" ++ " " ++ "1:59 am") = Ok dt
    /\ valid dt = true
    /\ "2026-11-01T01:59:00-07:00" = rendered dt.
Proof.
  destruct (convert_time_to_iso_sound (Some "2026-11-01") (Some "1:59 am")
              "2026-11-01T01:59:00-07:00" eq_refl)
    as (_ & _ & dt & Hp & Hv & _ & _ & Hs & _).
  exists dt. auto.
Defined.

(** ** What the converter turns down *)

(** X4. A well-written date that is no day of the calendar (a 30th of
    February, a 31st of April, the year 0000) gives no timestamp. *)
Theorem convert_time_to_iso_no_such_day (y m d : Z) (lz : bool) (h mi : Z)
    (pm : bool) :
  0 <= y <= 9999 -> 1 <= m <= 12 -> 1 <= d <= 31 ->
  check_date_fields y m d = false ->
  1 <= h <= 12 -> 0 <= mi <= 59 ->
  convert_time_to_iso (Some (date_string y m d)) (Some (time_string lz h mi pm))
  = Ok None.
Proof.
  intros Hy Hm Hd Hc Hh Hmi. rewrite convert_time_to_iso_cases.
  destruct (negb (truthy (Some (date_string y m d)))
            || negb (truthy (Some (time_string lz h mi pm)))); [ reflexivity | ].
  cbn [fstr]. unfold strptime.
  rewrite format_regex_match_valid by assumption.
  cbn [negb String.eqb g_Y g_m g_d g_I g_M g_p].
  rewrite int_pad4, int_pad2, int_pad2, int_hour_string, int_pad2 by lia.
  cbn [bind]. now rewrite Hc.
Qed.

Lemma convert_time_to_iso_no_such_day_witness :
  convert_time_to_iso (Some "2026-02-30") (Some "07:15 AM") = Ok None.
Proof.
  apply (convert_time_to_iso_no_such_day 2026 2 30 true 7 15 false);
    solve [ lia | reflexivity ].
Defined.

Lemma first_match_p_before (pm : bool) (rest : string) :
  first_match re_p (meridiem pm) rest.
Proof. destruct pm; first_match_by_computation. Qed.

Lemma format_regex_match_prefix (y m d : Z) (lz : bool) (h mi : Z) (pm : bool)
    (suffix : string) :
  1 <= m <= 12 -> 1 <= d <= 31 -> 1 <= h <= 12 -> 0 <= mi <= 59 ->
  format_regex_match
    (date_string y m d ++ " " ++ time_string lz h mi pm ++ suffix) =
  Some (mkfound (pad4 y) (pad2 m) (pad2 d) (hour_string lz h) (pad2 mi)
          (meridiem pm), suffix).
Proof.
  intros Hm Hd Hh Hmi.
  assert (E : date_string y m d ++ " " ++ time_string lz h mi pm ++ suffix =
              pad4 y ++ String "-" (pad2 m ++ String "-" (pad2 d ++ String " "
                (hour_string lz h ++ String ":" (pad2 mi ++ String " "
                  (meridiem pm ++ suffix)))))).
  { unfold date_string, time_string. rewrite !append_assoc. reflexivity. }
  rewrite E. unfold format_regex_match.
  apply group_first; [ apply first_match_Y | ]. rewrite run_Chr.
  apply group_first; [ now apply first_match_m | ]. rewrite run_Chr.
  apply group_first; [ now apply first_match_d | ].
  change (String " " ?s) with (" " ++ s).
  apply first_match_ws_before; [ now apply hour_string_head | ].
  apply group_first; [ now apply first_match_I | ]. rewrite run_Chr.
  apply group_first; [ now apply first_match_M | ].
  change (String " " ?s) with (" " ++ s).
  apply first_match_ws_before; [ apply meridiem_head | ].
  apply group_first; [ apply first_match_p_before | ]. reflexivity.
Qed.

(** X5. Whatever follows the AM/PM marker costs the timestamp: a valid
    date and a valid time with any text after the marker (a zone name, a
    space) give no timestamp. *)
Theorem convert_time_to_iso_trailing_text (y m d : Z) (lz : bool) (h mi : Z)
    (pm : bool) (suffix : string) :
  1 <= m <= 12 -> 1 <= d <= 31 -> 1 <= h <= 12 -> 0 <= mi <= 59 ->
  suffix <> "" ->
  convert_time_to_iso (Some (date_string y m d))
    (Some (time_string lz h mi pm ++ suffix))
  = Ok None.
Proof.
  intros Hm Hd Hh Hmi Hs. rewrite convert_time_to_iso_cases.
  destruct (negb (truthy (Some (date_string y m d)))
            || negb (truthy (Some (time_string lz h mi pm ++ suffix))));
    [ reflexivity | ].
  cbn [fstr]. unfold strptime.
  rewrite format_regex_match_prefix by assumption.
  destruct (String.eqb_spec suffix ""); [ contradiction | reflexivity ].
Qed.

Lemma convert_time_to_iso_trailing_text_witness :
  convert_time_to_iso (Some "2026-06-15") (Some "05:35 AM PDT") = Ok None.
Proof.
  apply (convert_time_to_iso_trailing_text 2026 6 15 true 5 35 false " PDT");
    solve [ lia | discriminate ].
Defined.

(** ** The raw converter as a whole *)

Lemma entries_from_missing_key (raw_data : list raw_item) :
  Exists (fun item => has_fields item = false) raw_data ->
  forall idx, entries_from idx raw_data = Raise KeyError.
Proof.
  induction 1 as [item rest Hi | item rest _ IH]; intros idx; cbn [entries_from].
  - now rewrite ekadashi_entry_missing_key.
  - destruct (has_fields item) eqn:Hf.
    + destruct (ekadashi_entry_returns idx item Hf)
        as (? & ? & ? & ? & ? & ? & ? & H).
      decompose [and] H.
      match goal with E : ekadashi_entry _ _ = _ |- _ => rewrite E end.
      cbn [bind]. now rewrite IH.
    + now rewrite ekadashi_entry_missing_key.
Qed.

(** X6. One raw entry that lacks one of the five keys read from it stops
    the whole run with a [KeyError]: no document is built, whatever the
    other entries hold. *)
Theorem main_missing_key_fatal (today : string) (raw_data : list raw_item) :
  Exists (fun item => has_fields item = false) raw_data ->
  main today raw_data = Raise KeyError.
Proof.
  intros H. unfold main. rewrite main_loop_entries.
  now rewrite (entries_from_missing_key raw_data H 0).
Qed.

Lemma main_missing_key_fatal_witness :
  main "2026-01-01"
    [ [("name", Some "Saphala Ekadashi"); ("fasting_date", Some "2026-01-14");
       ("parana_date", Some "2026-01-15"); ("parana_start", Some "07:15 AM");
       ("parana_end", Some "10:41 AM")];
      [("name", Some "Putrada Ekadashi"); ("fasting_date", Some "2026-01-29");
       ("parana_date", Some "2026-01-30"); ("parana_start", Some "07:12 AM")] ]
  = Raise KeyError.
Proof.
  apply main_missing_key_fatal. apply Exists_cons_tl, Exists_cons_hd.
  reflexivity.
Defined.

Lemma convert_time_to_iso_instant_or_null (date_str time_str r : option string) :
  convert_time_to_iso date_str time_str = Ok r -> instant_or_null (to_json r).
Proof.
  destruct r as [s | ]; [ | left; reflexivity ]. intros H.
  apply convert_time_to_iso_rendered in H.
  destruct H as (_ & _ & dt & _ & Hv & _ & _ & ->).
  right. exists dt. split; [ assumption | ]. split; [ reflexivity | ].
  intros Hy. apply (rendered_iso_form dt Hy).
Qed.

Lemma ekadashi_entry_schema (idx : Z) (item : raw_item) (e : json) :
  ekadashi_entry idx item = Ok e ->
  exists name date iso_start iso_end,
    e = JObj [("id", JInt (idx + 1));
              ("name", JObj [("en", name)]);
              ("timing", JObj [("PST", JObj [
                 ("date", date);
                 ("parana_start", iso_start);
                 ("parana_end", iso_end)])])]
    /\ instant_or_null iso_start /\ instant_or_null iso_end.
Proof.
  intros H.
  destruct (has_fields item) eqn:Hf;
    [ | rewrite ekadashi_entry_missing_key in H by assumption; discriminate ].
  destruct (ekadashi_entry_returns idx item Hf)
    as (name & fd & pd & ts & te & rs & re & _ & _ & _ & _ & _ & Hs & He & Hout).
  rewrite Hout in H. injection H as <-.
  exists (to_json name), (to_json fd), (to_json rs), (to_json re).
  split; [ reflexivity | ].
  split; eapply convert_time_to_iso_instant_or_null; eassumption.
Qed.

(** X7. Every entry of the document [main] builds has the keys [id],
    [name], [timing] in this order; its name holds the single key [en],
    its timing the single key [PST], and the PST record the keys [date],
    [parana_start], [parana_end] in this order, so no [fasting_start];
    each of the two instants is null or the timestamp of a valid
    datetime, which has the ISO shape from the year 1000 on. *)
Theorem main_entry_schema (today : string) (raw_data : list raw_item) (doc : json) :
  main today raw_data = Ok doc ->
  exists entries,
    getitem doc "ekadashis" = Ok (JArr entries)
    /\ forall e, In e entries ->
       exists d name pst iso_start iso_end,
         e = JObj d
         /\ map fst d = ["id"; "name"; "timing"]
         /\ lookup "name" d = Some (JObj [("en", name)])
         /\ lookup "timing" d = Some (JObj [("PST", JObj pst)])
         /\ map fst pst = ["date"; "parana_start"; "parana_end"]
         /\ lookup "fasting_start" pst = None
         /\ lookup "parana_start" pst = Some iso_start
         /\ instant_or_null iso_start
         /\ lookup "parana_end" pst = Some iso_end
         /\ instant_or_null iso_end.
Proof.
  unfold main. rewrite main_loop_entries.
  destruct (entries_from 0 raw_data) as [entries | ] eqn:He; cbn [bind app];
    [ | discriminate ].
  intros [= <-]. exists entries. split; [ reflexivity | ].
  intros e Hin. apply In_nth_error in Hin. destruct Hin as [i Hi].
  destruct (entries_from_nth _ _ _ He) as [Hlen Hnth].
  destruct (nth_error raw_data i) as [item | ] eqn:Hitem.
  - destruct (Hnth i item Hitem) as (e0 & He0 & Hentry).
    rewrite Hi in He0. injection He0 as <-.
    destruct (ekadashi_entry_schema _ _ _ Hentry)
      as (name & date & rs & re & -> & Hs & Hr).
    eexists. exists name. eexists. exists rs, re.
    split; [ reflexivity | ].
    repeat (split; [ reflexivity || assumption | ]). assumption.
  - apply nth_error_None in Hitem.
    assert (Hs : nth_error entries i <> None) by congruence.
    apply nth_error_Some in Hs. lia.
Qed.

Lemma main_entry_schema_witness :
  exists doc entries,
    main "2026-01-01" sample_raw = Ok doc
    /\ getitem doc "ekadashis" = Ok (JArr entries)
    /\ List.length entries = 2%nat.
Proof.
  eexists. eexists. split; [ vm_compute; reflexivity | ].
  destruct (main_entry_schema "2026-01-01" sample_raw _ eq_refl)
    as (entries & Hget & _).
  split; reflexivity.
Defined.

(** ** The corrector: metadata, failures, report *)

(** A run of the corrector that returns: what it printed. *)
Lemma corrector_log (table : dict) (data out : json) (log : list log_line) :
  corrector table data = Ok (out, log) ->
  exists items,
    events data = Ok items
    /\ log = (flat_map (lines table) items
              ++ [Retained (List.length (kept table items))])%list.
Proof.
  intros H. pose proof (corrector_inv _ _ _ _ H)
    as (d & tzs & ist & items & -> & Htz & Hist & Hev & Hobj & _ & _).
  exists items. split; [ assumption | ].
  unfold events in Hev. cbn [getitem] in Hev.
  destruct (lookup "ekadashis" d) as [ev | ] eqn:Hl; cbn [bind] in Hev;
    [ | discriminate ].
  unfold corrector in H. cbn [setitem bind setitem_at getitem] in H.
  rewrite lookup_store_other, Htz in H by discriminate. cbn [bind getitem] in H.
  rewrite Hist in H. cbn [bind setitem getitem] in H.
  rewrite !lookup_store_other, Hl in H by discriminate. cbn [bind] in H.
  rewrite Hev in H. cbn [bind] in H.
  destruct (filter_loop table items ([], [])) as [[filtered lg] | ] eqn:E;
    cbn [bind] in H; [ | discriminate ].
  apply filter_loop_inv in E. destruct E as ([= -> ->] & _ & _).
  cbn [app] in H.
  rewrite (renumber_objects _ (kept_objects table _ Hobj)) in H.
  cbn [bind] in H. now injection H as _ <-.
Qed.

(** X8. The metadata rewrite: the document returned has the date range
    2026-01-01 .. 2026-12-31 and the city list [India] for IST; the other
    fields of the IST entry, the other time zones and every top-level
    field other than [date_range], [timezones] and [ekadashis] are as
    loaded. *)
Theorem corrector_metadata (table : dict) (data out : json)
    (log : list log_line) :
  corrector table data = Ok (out, log) ->
  field "date_range" out = Some date_range_2026
  /\ (exists tzs tzs' ist ist',
        field "timezones" data = Some (JObj tzs)
        /\ field "timezones" out = Some (JObj tzs')
        /\ lookup "IST" tzs = Some (JObj ist)
        /\ lookup "IST" tzs' = Some (JObj ist')
        /\ lookup "cities" ist' = Some (JArr [JStr "India"])
        /\ (forall k, k <> "cities" -> lookup k ist' = lookup k ist)
        /\ (forall tz, tz <> "IST" -> lookup tz tzs' = lookup tz tzs))
  /\ (forall k, k <> "date_range" -> k <> "timezones" -> k <> "ekadashis" ->
        field k out = field k data).
Proof.
  intros H. apply corrector_inv in H.
  destruct H as (d & tzs & ist & items & -> & Htz & Hist & _ & _ & _ & ->).
  unfold with_metadata. cbn [field]. split; [ | split ].
  - rewrite !lookup_store_other by discriminate. apply lookup_store_same.
  - exists tzs, (store "IST" (JObj (store "cities" (JArr [JStr "India"]) ist)) tzs),
      ist, (store "cities" (JArr [JStr "India"]) ist).
    split; [ assumption | ].
    split; [ rewrite lookup_store_other by discriminate; apply lookup_store_same | ].
    split; [ assumption | ].
    split; [ apply lookup_store_same | ].
    split; [ apply lookup_store_same | ].
    split; intros k Hk; now apply lookup_store_other.
  - intros k H1 H2 H3. now rewrite !lookup_store_other.
Qed.

Lemma corrector_metadata_witness :
  exists out log,
    script sample_document = Ok (out, log)
    /\ field "date_range" out = Some date_range_2026
    /\ field "version" out = field "version" sample_document.
Proof.
  eexists. eexists. split; [ vm_compute; reflexivity | ].
  destruct (corrector_metadata ist_corrections sample_document _ _ eq_refl)
    as (Hdr & _ & Hframe).
  split; [ exact Hdr | ]. apply Hframe; discriminate.
Defined.

(** X9. What the corrector needs of the document, and how it fails
    without: anything but an object is a [TypeError]; an object without
    [timezones], a time-zone table without [IST], and a document without
    [ekadashis] are [KeyError]s; a missing [date_range] is no failure. *)
Theorem corrector_structural_failures (table : dict) :
  (forall data, is_obj data = false -> corrector table data = Raise TypeError)
  /\ (forall d, lookup "timezones" d = None ->
        corrector table (JObj d) = Raise KeyError)
  /\ (forall d tzs, lookup "timezones" d = Some (JObj tzs) ->
        lookup "IST" tzs = None ->
        corrector table (JObj d) = Raise KeyError)
  /\ (forall d tzs ist, lookup "timezones" d = Some (JObj tzs) ->
        lookup "IST" tzs = Some (JObj ist) ->
        lookup "ekadashis" d = None ->
        corrector table (JObj d) = Raise KeyError)
  /\ (forall d tzs ist, lookup "timezones" d = Some (JObj tzs) ->
        lookup "IST" tzs = Some (JObj ist) ->
        lookup "ekadashis" d = Some (JArr []) ->
        lookup "date_range" d = None ->
        exists out, corrector table (JObj d) = Ok (out, [Retained 0])
                    /\ field "date_range" out = Some date_range_2026).
Proof.
  split; [ | split; [ | split; [ | split ] ] ].
  - intros data H. destruct data; try reflexivity. discriminate.
  - intros d H. unfold corrector. cbn [setitem bind setitem_at getitem].
    now rewrite lookup_store_other, H by discriminate.
  - intros d tzs H1 H2. unfold corrector. cbn [setitem bind setitem_at getitem].
    rewrite lookup_store_other, H1 by discriminate. cbn [bind getitem].
    now rewrite H2.
  - intros d tzs ist H1 H2 H3. unfold corrector.
    cbn [setitem bind setitem_at getitem].
    rewrite lookup_store_other, H1 by discriminate. cbn [bind getitem].
    rewrite H2. cbn [bind setitem getitem].
    now rewrite !lookup_store_other, H3 by discriminate.
  - intros d tzs ist H1 H2 H3 H4. unfold corrector.
    cbn [setitem bind setitem_at getitem].
    rewrite lookup_store_other, H1 by discriminate. cbn [bind getitem].
    rewrite H2. cbn [bind setitem getitem].
    rewrite !lookup_store_other, H3 by discriminate.
    cbn [bind iterate filter_loop renumber app List.length].
    eexists. split; [ reflexivity | ]. cbn [field].
    rewrite !lookup_store_other by discriminate. apply lookup_store_same.
Qed.

Lemma lines_counts (table : dict) (items : list json) :
  List.length (filter is_kept_line (flat_map (lines table) items))
  = List.length (filter ist_date_in_2026 items)
  /\ (List.length (filter is_removed_line (flat_map (lines table) items))
      + List.length (filter ist_date_in_2026 items) = List.length items)%nat
  /\ List.length (filter is_corrected_line (flat_map (lines table) items))
     = List.length
         (filter (fun e => match table_hit table e with
                           | Some _ => true
                           | None => false
                           end)
            (filter ist_date_in_2026 items)).
Proof.
  induction items as [ | e rest (IH1 & IH2 & IH3)]; cbn [flat_map filter List.length];
    [ auto | ].
  rewrite !filter_app, !length_app, IH1, IH3.
  assert (HL : lines table e =
               if ist_date_in_2026 e then
                 match table_hit table e with
                 | Some c =>
                     [Corrected (name_of e)
                        (match field "date" c with Some v => v | None => JNull end);
                      Kept (name_of e) (date_of e)]
                 | None => [Kept (name_of e) (date_of e)]
                 end
               else [Removed (name_of e) (date_of e)]) by reflexivity.
  rewrite HL. clear HL.
  destruct (ist_date_in_2026 e); cbn [filter List.length].
  - destruct (table_hit table e);
      cbn [filter is_kept_line is_removed_line is_corrected_line List.length];
      repeat split; lia.
  - cbn [filter is_kept_line is_removed_line is_corrected_line List.length].
    repeat split; lia.
Qed.

(** X10. The report accounts for every event: one Kept line per event
    of the output, one Removed line per event left out, one Corrected
    line per kept event whose name is in the table, and, last, the count
    of the events of the output. *)
Theorem corrector_report (table : dict) (data out : json) (log : list log_line) :
  corrector table data = Ok (out, log) ->
  exists items,
    events data = Ok items
    /\ List.length (filter is_kept_line log) = List.length (entries_of out)
    /\ (List.length (filter is_removed_line log) + List.length (entries_of out)
        = List.length items)%nat
    /\ List.length (filter is_corrected_line log)
       = List.length
           (filter (fun e => match table_hit table e with
                             | Some _ => true
                             | None => false
                             end)
              (filter ist_date_in_2026 items))
    /\ last log (Retained 0) = Retained (List.length (entries_of out)).
Proof.
  intros H. destruct (corrector_log _ _ _ _ H) as (items & Hev & ->).
  apply corrector_inv in H.
  destruct H as (d & tzs & ist & items' & -> & _ & _ & Hev' & _ & _ & ->).
  rewrite Hev in Hev'. injection Hev' as <-.
  exists items. split; [ assumption | ].
  assert (Hn : List.length (entries_of
                 (JObj (store "ekadashis" (JArr (renumbered 1 (kept table items)))
                          (with_metadata d tzs ist))))
               = List.length (filter ist_date_in_2026 items)).
  { unfold entries_of. cbn [field]. rewrite lookup_store_same.
    unfold kept. now rewrite renumbered_length, length_map. }
  rewrite Hn.
  destruct (lines_counts table items) as (H1 & H2 & H3).
  rewrite !filter_app, !length_app. cbn [filter is_kept_line is_removed_line
    is_corrected_line List.length].
  rewrite last_last. unfold kept. rewrite length_map.
  repeat split; lia.
Qed.

Lemma corrector_report_witness :
  exists out log,
    script sample_document = Ok (out, log)
    /\ List.length (filter is_kept_line log) = 2%nat
    /\ List.length (filter is_removed_line log) = 1%nat.
Proof.
  eexists. eexists. split; [ vm_compute; reflexivity | ].
  destruct (corrector_report ist_corrections sample_document _ _ eq_refl)
    as (items & Hev & Hk & Hr & _).
  injection Hev as <-. split; [ exact Hk | ].
  cbn in Hr. cbn. lia.
Defined.

(** ** The corrector: what holds of its output *)

Lemma corrector_entries (table : dict) (data out : json) (log : list log_line) :
  corrector table data = Ok (out, log) ->
  exists items,
    events data = Ok items
    /\ entries_of out = renumbered 1 (kept table items)
    /\ Forall (fun e => ist_date_in_2026 e = true
                        /\ name_en e = Ok (name_of e)
                        /\ hashable (name_of e) = true)
         (filter ist_date_in_2026 items).
Proof.
  intros H. apply corrector_inv in H.
  destruct H as (d & tzs & ist & items & -> & _ & _ & Hev & _ & Hacc & ->).
  exists items. split; [ assumption | ]. split.
  - unfold entries_of. cbn [field]. now rewrite lookup_store_same.
  - rewrite Forall_forall in *. intros e He. apply filter_In in He.
    destruct He as [He H2026]. destruct (Hacc e He) as [Hh Hn]. auto.
Qed.

(** X11. Under a correction table whose records are dated in 2026, as
    the script's are, every event of the document returned has an IST
    date that starts with 2026. *)
Theorem corrector_output_in_2026 (table : dict) (data out : json)
    (log : list log_line) :
  table_in_2026 table = true ->
  corrector table data = Ok (out, log) ->
  Forall (fun e => ist_date_in_2026 e = true) (entries_of out).
Proof.
  intros Htab H. destruct (corrector_entries _ _ _ _ H) as (items & _ & -> & Hk).
  pose proof (renumbered_kept_stays table _ Htab Hk 1) as HR.
  unfold kept. rewrite Forall_forall in *. intros e He. now apply HR.
Qed.

Lemma corrector_output_in_2026_witness :
  exists out log,
    script sample_document = Ok (out, log)
    /\ Forall (fun e => ist_date_in_2026 e = true) (entries_of out).
Proof.
  eexists. eexists. split; [ vm_compute; reflexivity | ].
  exact (corrector_output_in_2026 ist_corrections sample_document _ _
           eq_refl eq_refl).
Defined.

Lemma set_ist_present (c : json) (e : json) :
  ist_of e = Some c -> set_ist c e = e.
Proof.
  unfold ist_of, set_ist, field. destruct e as [ | | | | | | d]; try reflexivity.
  destruct (lookup "timing" d) as [[ | | | | | | t] | ] eqn:Ht; try reflexivity.
  intros Hi. rewrite (store_present _ _ _ Hi). now rewrite (store_present _ _ _ Ht).
Qed.

(** An event of 2026 that already carries the table's record for its
    name is kept as it is. *)
Lemma loop_body_keeps_corrected (table : dict) (acc : list json)
    (out : list log_line) (e c : json) :
  ist_date_in_2026 e = true -> name_en e = Ok (name_of e) ->
  hashable (name_of e) = true -> table_hit table e = Some c ->
  ist_of e = Some c -> record_in_2026 c = true ->
  exists out', loop_body table (acc, out) e = Ok ((acc ++ [e])%list, out').
Proof.
  intros H2026 Hn Hh Hhit Hist Hrec.
  destruct (in_2026_shape e H2026) as (d & t & i & s & -> & Ht & Hi & Hd & Hp).
  unfold loop_body. cbn [get]. rewrite Ht. cbn [bind get]. rewrite Hi.
  cbn [bind get]. rewrite Hd. cbn [bind startswith]. rewrite Hp, Hn.
  cbn [bind].
  assert (Hc : contains table (name_of (JObj d)) = Ok (Some c)).
  { unfold table_hit in Hhit.
    destruct (name_of (JObj d)); try discriminate. exact (f_equal Ok Hhit). }
  rewrite Hc. cbn [bind]. rewrite setitem_at_ist by assumption.
  rewrite (set_ist_present _ _ Hist). cbn [bind].
  unfold record_in_2026 in Hrec. destruct c as [ | | | | | | cd]; try discriminate.
  cbn [field getitem] in *.
  destruct (lookup "date" cd); [ | discriminate ]. cbn [bind]. eauto.
Qed.

Lemma kept_event_hit (table : dict) (n : Z) (e : json) :
  ist_date_in_2026 e = true ->
  let e' := set_id n (apply_correction table e) in
  table_hit table e' = table_hit table e
  /\ forall c, table_hit table e = Some c -> ist_of e' = Some c.
Proof.
  intros H e'. split.
  - unfold table_hit. subst e'. now rewrite kept_event_name.
  - apply (kept_event_frame table n e H).
Qed.

Lemma filter_loop_keeps_own_output (table : dict) (l : list json) :
  table_in_2026 table = true ->
  Forall (fun e => ist_date_in_2026 e = true /\ name_en e = Ok (name_of e)
                   /\ hashable (name_of e) = true
                   /\ forall c, table_hit table e = Some c -> ist_of e = Some c) l ->
  forall acc out, exists out',
    filter_loop table l (acc, out) = Ok ((acc ++ l)%list, out').
Proof.
  intros Htab. induction 1 as [ | e rest (H1 & H2 & H3 & H4) _ IH];
    intros acc out; cbn [filter_loop].
  - exists out. now rewrite app_nil_r.
  - assert (Hb : exists out1,
               loop_body table (acc, out) e = Ok ((acc ++ [e])%list, out1)).
    { destruct (table_hit table e) as [c | ] eqn:Hhit.
      - apply (loop_body_keeps_corrected table acc out e c); auto.
        unfold table_hit in Hhit. destruct (name_of e); try discriminate.
        exact (table_in_2026_lookup _ _ _ Htab Hhit).
      - rewrite loop_body_keeps by assumption. eauto. }
    destruct Hb as [out1 ->]. cbn [bind].
    destruct (IH (acc ++ [e])%list out1) as [out' ->].
    exists out'. now rewrite <- app_assoc.
Qed.

(** X12. The script is idempotent: run on the document it returned, it
    returns that document again. *)
Theorem script_idempotent (data out : json) (log : list log_line) :
  script data = Ok (out, log) ->
  exists log', script out = Ok (out, log').
Proof.
  unfold script.
  assert (Htab : table_in_2026 ist_corrections = true) by reflexivity.
  revert Htab. generalize ist_corrections as table. intros table Htab H.
  destruct (corrector_entries _ _ _ _ H) as (items0 & Hev0 & _ & Hk).
  apply corrector_inv in H.
  destruct H as (d & tzs & ist & items & -> & Htz & Hist & Hev & Hobj & _ & ->).
  rewrite Hev in Hev0. injection Hev0 as <-.
  set (R := renumbered 1 (kept table items)).
  set (M := with_metadata d tzs ist).
  assert (HR : Forall (fun e => ist_date_in_2026 e = true
                                /\ name_en e = Ok (name_of e)
                                /\ hashable (name_of e) = true
                                /\ forall c, table_hit table e = Some c ->
                                             ist_of e = Some c) R).
  { subst R. unfold kept. generalize 1.
    induction Hk as [ | e rest (H1 & H2 & H3) _ IH]; intros n;
      cbn [map renumbered]; constructor; [ | apply IH ].
    destruct (kept_event_stays table n e Htab H1 H2 H3) as (A & B & C).
    destruct (kept_event_hit table n e H1) as (Hsame & Hc).
    repeat (split; [ assumption | ]).
    intros c Hhit. apply Hc. now rewrite <- Hsame. }
  assert (HRobj : Forall (fun e => is_obj e = true) R).
  { subst R. apply renumbered_objects. now apply kept_objects. }
  assert (Hdr : lookup "date_range" (store "ekadashis" (JArr R) M) = Some date_range_2026).
  { subst M. unfold with_metadata.
    rewrite !lookup_store_other by discriminate. apply lookup_store_same. }
  assert (Htzs : lookup "timezones" (store "ekadashis" (JArr R) M)
                 = Some (JObj (store "IST" (JObj (store "cities" (JArr [JStr "India"]) ist)) tzs))).
  { subst M. unfold with_metadata.
    rewrite lookup_store_other by discriminate. apply lookup_store_same. }
  unfold corrector. cbn [setitem bind].
  rewrite (store_present _ _ _ Hdr).
  cbn [setitem_at getitem]. rewrite Htzs. cbn [bind getitem].
  rewrite lookup_store_same. cbn [bind setitem].
  rewrite !store_store.
  rewrite (store_present _ _ _ Htzs).
  rewrite getitem_store. cbn [bind iterate].
  destruct (filter_loop_keeps_own_output table R Htab HR [] []) as [out' ->].
  cbn [bind app]. rewrite store_store.
  rewrite (renumber_objects R HRobj). cbn [bind].
  subst R. rewrite renumbered_again, store_store. eauto.
Qed.

Lemma script_idempotent_witness :
  exists out log log',
    script sample_document = Ok (out, log) /\ script out = Ok (out, log').
Proof.
  eexists. eexists.
  destruct (script_idempotent sample_document _ _ eq_refl) as [log' H].
  exists log'. split; [ reflexivity | exact H ].
Defined.

(** X13. The correction is keyed by the English name alone: two kept
    events with the same name, when the table lists it, come out with the
    same IST record, the table's, whatever dates they were loaded
    with. *)
Theorem correction_keyed_by_name (table : dict) (data out : json)
    (log : list log_line) :
  corrector table data = Ok (out, log) ->
  exists items,
    events data = Ok items
    /\ forall i j e1 e2 c,
         nth_error (filter ist_date_in_2026 items) i = Some e1 ->
         nth_error (filter ist_date_in_2026 items) j = Some e2 ->
         name_of e1 = name_of e2 ->
         table_hit table e1 = Some c ->
         exists e1' e2',
           nth_error (entries_of out) i = Some e1'
           /\ nth_error (entries_of out) j = Some e2'
           /\ ist_of e1' = Some c /\ ist_of e2' = Some c.
Proof.
  intros H. destruct (corrector_entries _ _ _ _ H) as (items & Hev & -> & _).
  exists items. split; [ assumption | ].
  assert (Hnth : forall i e,
             nth_error (filter ist_date_in_2026 items) i = Some e ->
             ist_date_in_2026 e = true
             /\ nth_error (renumbered 1 (kept table items)) i =
                Some (set_id (1 + Z.of_nat i) (apply_correction table e))).
  { intros i e Hi. split.
    - apply nth_error_In in Hi. now apply filter_In in Hi.
    - apply renumbered_nth. unfold kept. now rewrite nth_error_map, Hi. }
  intros i j e1 e2 c Hi Hj Hname Hc.
  destruct (Hnth i e1 Hi) as [H1 N1]. destruct (Hnth j e2 Hj) as [H2 N2].
  assert (Hc2 : table_hit table e2 = Some c)
    by (unfold table_hit in *; now rewrite <- Hname).
  do 2 eexists. split; [ exact N1 | ]. split; [ exact N2 | ].
  split; [ now apply (kept_event_frame table _ e1 H1)
         | now apply (kept_event_frame table _ e2 H2) ].
Qed.

Lemma correction_keyed_by_name_witness :
  exists out log e1' e2',
    script (document_of [saphala_january; saphala_december]) = Ok (out, log)
    /\ nth_error (entries_of out) 0 = Some e1'
    /\ nth_error (entries_of out) 1 = Some e2'
    /\ date_of e1' = JStr "2026-12-04" /\ date_of e2' = JStr "2026-12-04".
Proof.
  eexists. eexists.
  destruct (correction_keyed_by_name ist_corrections
              (document_of [saphala_january; saphala_december]) _ _ eq_refl)
    as (items & Hev & Hsame).
  injection Hev as <-.
  destruct (Hsame 0%nat 1%nat saphala_january saphala_december _
              eq_refl eq_refl eq_refl eq_refl)
    as (e1' & e2' & N1 & N2 & I1 & I2).
  exists e1', e2'. split; [ reflexivity | ].
  split; [ exact N1 | ]. split; [ exact N2 | ].
  unfold date_of. rewrite I1, I2. split; reflexivity.
Defined.

Lemma store_keys_absent {V : Type} (k : string) (v : V) (d : list (string * V)) :
  lookup k d = None -> map fst (store k v d) = (map fst d ++ [k])%list.
Proof.
  induction d as [ | [k0 v0] d IH]; cbn; [ reflexivity | ].
  destruct (String.eqb_spec k k0) as [-> | Hk]; [ discriminate | ].
  intros H. cbn. now rewrite IH.
Qed.

(** X14. A kept event keeps its keys in their order: the correction
    replaces a value in place, and the renumbering overwrites the [id]
    where it is, or appends one to an event that had none. *)
Theorem corrector_keeps_keys (table : dict) (data out : json)
    (log : list log_line) :
  corrector table data = Ok (out, log) ->
  exists items,
    events data = Ok items
    /\ forall i e, nth_error (filter ist_date_in_2026 items) i = Some e ->
       exists d d',
         e = JObj d
         /\ nth_error (entries_of out) i = Some (JObj d')
         /\ map fst d' = match lookup "id" d with
                         | Some _ => map fst d
                         | None => (map fst d ++ ["id"])%list
                         end.
Proof.
  intros H. destruct (corrector_entries _ _ _ _ H) as (items & Hev & -> & _).
  exists items. split; [ assumption | ].
  intros i e Hi.
  assert (H2026 : ist_date_in_2026 e = true).
  { apply nth_error_In in Hi. now apply filter_In in Hi. }
  destruct (in_2026_shape e H2026) as (d & t & ic & s & -> & Ht & _).
  assert (Hcorr : exists d1, apply_correction table (JObj d) = JObj d1
                             /\ map fst d1 = map fst d
                             /\ lookup "id" d1 = lookup "id" d).
  { unfold apply_correction, set_ist. rewrite Ht.
    destruct (table_hit table (JObj d)); [ | eauto ].
    eexists. split; [ reflexivity | ].
    split; [ apply (store_keys _ _ _ _ Ht) | ].
    now apply lookup_store_other. }
  destruct Hcorr as (d1 & Hd1 & Hkeys & Hid).
  exists d, (store "id" (JInt (1 + Z.of_nat i)) d1).
  split; [ reflexivity | ]. split.
  - rewrite (renumbered_nth _ 1 i (apply_correction table (JObj d))).
    + now rewrite Hd1.
    + unfold kept. now rewrite nth_error_map, Hi.
  - rewrite <- Hid, <- Hkeys. destruct (lookup "id" d1) eqn:E.
    + apply (store_keys _ _ _ _ E).
    + now apply store_keys_absent.
Qed.

Lemma corrector_keeps_keys_witness :
  exists out log d',
    script sample_document = Ok (out, log)
    /\ nth_error (entries_of out) 1 = Some (JObj d')
    /\ map fst d' = ["id"; "name"; "timing"].
Proof.
  eexists. eexists.
  destruct (corrector_keeps_keys ist_corrections sample_document _ _ eq_refl)
    as (items & Hev & Hkeys).
  injection Hev as <-.
  destruct (Hkeys 1%nat apara_2026 eq_refl) as (d & d' & Hd & Hn & Hk).
  exists d'. split; [ reflexivity | ]. split; [ exact Hn | ].
  injection Hd as <-. exact Hk.
Defined.
